(** * HR interview bot: [models/rag_model.py]

    A shallow embedding of the three pure pieces of the module: the
    question bank ([generate_questions_for_job]), the answer scorer
    ([provide_feedback]) and the ranking part of the resume matcher
    ([process_resume_and_match_jobs]).

    Python values are modelled as follows.
    - A [str] is the list of its Unicode code points, so [len] is [length]
      and [+] is [++].
    - An [int] used as a counter is a [nat].
    - A [float] is the rational it denotes. The two products of
      [provide_feedback] are taken exactly; their binary64 values are
      modelled next to them and shown to give the same tests.
    - A call that may raise returns a [result]: [Return v] or [Raise e].
    - [print] calls are diagnostics and are left out. *)

From Stdlib Require Import PrimFloat.
From Stdlib Require Import String Ascii.
From Stdlib Require Import List ZArith NArith QArith Qabs Bool Lia.
From Stdlib Require Import Permutation Sorted.
Import ListNotations.

(** ** Python strings *)

Definition str := list N.

(** A source literal made of ASCII characters only. *)
Definition lit (s : string) : str :=
  map N_of_ascii (list_ascii_of_string s).

Definition len (s : str) : nat := length s.

(** [str.isspace] for one code point: the code points CPython's
    [_PyUnicode_IsWhitespace] accepts. *)
Definition isspace (c : N) : bool :=
  ((9 <=? c) && (c <=? 13) || (28 <=? c) && (c <=? 32)
   || (c =? 133) || (c =? 160) || (c =? 5760)
   || (8192 <=? c) && (c <=? 8202)
   || (c =? 8232) || (c =? 8233) || (c =? 8239) || (c =? 8287)
   || (c =? 12288))%N.

Fixpoint lstrip (s : str) : str :=
  match s with
  | c :: s' => if isspace c then lstrip s' else s
  | [] => []
  end.

Definition rstrip (s : str) : str := rev (lstrip (rev s)).

(** [s.strip()] with no argument. *)
Definition strip (s : str) : str := rstrip (lstrip s).

Fixpoint str_eqb (a b : str) : bool :=
  match a, b with
  | [], [] => true
  | x :: a', y :: b' => (x =? y)%N && str_eqb a' b'
  | _, _ => false
  end.

(** [c * n] for a one-character pattern, as in ["a" * 25]. *)
Definition str_repeat (s : str) (n : nat) : str := concat (repeat s n).

(** ** Feedback scorer *)

Definition feedback_excellent : str :=
  lit "Excellent! You have strong responses for this role.".
Definition feedback_good : str :=
  lit "Good! But there's room for improvement in some answers.".
Definition feedback_needs_improvement : str :=
  lit "Needs improvement. Consider revising your answers.".

(** The loop body of [provide_feedback]: one more point for an answer whose
    stripped length is greater than 20. *)
Definition count_answer (score : nat) (answer : str) : nat :=
  if (20 <? len (strip answer))%nat then score + 1 else score.

Definition of_int (n : nat) : Q := inject_Z (Z.of_nat n).

(** [score >= len(answers) * c] for a decimal constant [c]. The product is
    taken in exact rational arithmetic; [binary64_ge] below takes it in
    binary64, and the two agree for fewer than [2^50] answers. *)
Definition score_ge (score : nat) (n : nat) (c : Q) : bool :=
  Qle_bool (of_int n * c) (of_int score).

Definition provide_feedback (answers : list str) : nat * str :=
  let score := fold_left count_answer answers 0%nat in
  let feedback :=
    if score_ge score (length answers) 0.8 then feedback_excellent
    else if score_ge score (length answers) 0.5 then feedback_good
    else feedback_needs_improvement in
  (score, feedback).

(** The number of answers the spec calls substantive. *)
Definition substantive (answer : str) : bool :=
  (20 <? len (strip answer))%nat.

Definition substantive_count (answers : list str) : nat :=
  length (filter substantive answers).

(** [score / len(answers)] as a rational. *)
Definition ratio (score n : nat) : Q := (of_int score / of_int n)%Q.

(** The 25-character answer of the spec examples, ["a" * 25]. *)
Definition a25 : str := str_repeat (lit "a") 25.

(** ** The thresholds in binary64

    Python evaluates [len(answers) * 0.8] in binary64: the length is
    converted to a double, multiplied by the double nearest to 0.8 and the
    product is rounded to nearest, ties to even. Two further models of the
    test [score >= len(answers) * c] follow, to be compared with
    [score_ge]: one on the primitive floats of the kernel, one on integers
    with the rounding written out. *)

Definition c08 : float := 0x1.999999999999ap-1%float.
Definition c05 : float := 0.5%float.

Fixpoint float_of_pos (p : positive) : float :=
  match p with
  | xH => 1%float
  | xO p' => PrimFloat.mul 2%float (float_of_pos p')
  | xI p' => PrimFloat.add (PrimFloat.mul 2%float (float_of_pos p')) 1%float
  end.

(** The double of a natural number below [2^53], which is exact. *)
Definition float_of_Z (z : Z) : float :=
  match z with
  | Zpos p => float_of_pos p
  | _ => 0%float
  end.

(** [score >= n * c] on primitive floats. *)
Definition float_ge (score n : Z) (c : float) : bool :=
  PrimFloat.leb (PrimFloat.mul (float_of_Z n) c) (float_of_Z score).

(** [p / K] rounded to the nearest integer, ties to even. *)
Definition round_div (p K : Z) : Z :=
  let q := (p / K)%Z in
  let r := (p mod K)%Z in
  if (2 * r <? K)%Z then q
  else if (K <? 2 * r)%Z then (q + 1)%Z
  else if Z.even q then q else (q + 1)%Z.

(** The 53-bit significands: [c08] is [m08 * 2^-53] and [c05] is
    [m05 * 2^-53]. *)
Definition m08 : Z := 7205759403792794.
Definition m05 : Z := 2 ^ 52.

(** [score >= n * c] for [c = m * 2^-53] with the rounding written out:
    the exact product [n * m * 2^-53] keeps its 53 leading bits, so it is
    rounded to a multiple of [K * 2^-53], where [K = 2^k] and [k] is the
    number of bits of [n * m] beyond 53. *)
Definition binary64_ge (score n m : Z) : bool :=
  let p := (n * m)%Z in
  let K := (2 ^ Z.max 0 (Z.log2 p - 52))%Z in
  (round_div p K * K <=? score * 2 ^ 53)%Z.

(** [provide_feedback] with both tests taken in binary64. *)
Definition provide_feedback_binary64 (answers : list str) : nat * str :=
  let score := fold_left count_answer answers 0%nat in
  let n := Z.of_nat (length answers) in
  let feedback :=
    if binary64_ge (Z.of_nat score) n m08 then feedback_excellent
    else if binary64_ge (Z.of_nat score) n m05 then feedback_good
    else feedback_needs_improvement in
  (score, feedback).

(** The pairs [(score, n)] with [score <= n] and [lo <= n < lo + count]. *)
Definition score_pairs (lo : Z) (count : nat) : list (Z * Z) :=
  flat_map (fun i => let n := (lo + Z.of_nat i)%Z in
                     map (fun s => (s, n))
                         (filter (fun s => (s <=? n)%Z)
                                 (map Z.of_nat (seq 0 (S count)))))
           (seq 0 count).

(** The pairs [(score, n)] for [n] just above [lo] and [score] within 3
    of [4 * n / 5] and of [n / 2], where the tests change their answer. *)
Definition threshold_pairs (lo : Z) (count : nat) : list (Z * Z) :=
  flat_map (fun i => let n := (lo + Z.of_nat i)%Z in
                     map (fun d => (4 * n / 5 - 3 + Z.of_nat d, n)%Z)
                         (seq 0 7)
                     ++ map (fun d => (n / 2 - 3 + Z.of_nat d, n)%Z)
                            (seq 0 7))
           (seq 0 count).

Definition models_agree (sn : Z * Z) : bool :=
  Bool.eqb (float_ge (fst sn) (snd sn) c08) (binary64_ge (fst sn) (snd sn) m08)
  && Bool.eqb (float_ge (fst sn) (snd sn) c05)
              (binary64_ge (fst sn) (snd sn) m05).

(** ** Question bank *)

(** The module-level list of job titles (lines 21-43). *)
Definition job_titles : list str :=
  [ lit "Software Engineer";
    lit "Data Scientist";
    lit "Cloud Engineer";
    lit "Full Stack Developer";
    lit "DevOps Engineer";
    lit "Front End Developer";
    lit "Back End Developer";
    lit "Mobile Application Developer";
    lit "Cybersecurity Analyst";
    lit "Database Administrator";
    lit "System Administrator";
    lit "Network Engineer";
    lit "IT Support Specialist";
    lit "Web Developer";
    lit "Product Manager";
    lit "Machine Learning Engineer";
    lit "IT Project Manager";
    lit "Business Analyst";
    lit "Technical Support Engineer";
    lit "Quality Assurance Engineer";
    lit "Data Engineer";
    lit "Artificial Intelligence Engineer";
    lit "UX/UI Designer";
    lit "IT Consultant";
    lit "Solutions Architect";
    lit "IT Operations Manager";
    lit "Chief Technology Officer (CTO)";
    lit "Security Engineer";
    lit "IT Auditor";
    lit "Software Architect";
    lit "Scrum Master";
    lit "Technical Writer";
    lit "Network Security Analyst";
    lit "Game Developer";
    lit "Embedded Systems Engineer";
    lit "ERP Consultant";
    lit "Salesforce Developer";
    lit "Big Data Engineer";
    lit "BI Developer";
    lit "Information Security Analyst";
    lit "Robotics Engineer";
    lit "Cloud Solutions Architect";
    lit "Computer Vision Engineer";
    lit "Site Reliability Engineer";
    lit "Penetration Tester";
    lit "Data Analyst";
    lit "Blockchain Developer";
    lit "IT Compliance Specialist";
    lit "Software Development Manager";
    lit "Virtual Reality Developer";
    lit "Infrastructure Engineer";
    lit "IT Operations Analyst";
    lit "Digital Marketing Specialist";
    lit "Network Architect";
    lit "Help Desk Technician";
    lit "Configuration Manager";
    lit "Systems Analyst";
    lit "Database Developer";
    lit "IT Business Partner";
    lit "Cloud Consultant";
    lit "Virtualization Engineer";
    lit "E-commerce Specialist";
    lit "IT Trainer";
    lit "Technical Project Manager";
    lit "Mobile UX Designer";
    lit "Network Operations Center (NOC) Technician";
    lit "Release Manager";
    lit "IT Change Manager";
    lit "Data Governance Analyst";
    lit "Performance Engineer";
    lit "BI Analyst";
    lit "SAP Consultant";
    lit "Digital Transformation Consultant";
    lit "IT Asset Manager";
    lit "Game Designer";
    lit "Social Media Analyst" ].

Definition generate_software_engineer_questions : list str :=
  [ lit "What are the core principles of object-oriented programming (OOP)?";
    lit "Explain the concept of design patterns. Can you provide an example?";
    lit "Describe how you manage code versioning using Git.";
    lit "How do you ensure the quality and maintainability of your code?";
    lit "What testing strategies do you use during development?";
    lit "Can you explain the differences between functional and imperative programming?" ].

Definition generate_data_scientist_questions : list str :=
  [ lit "What data cleaning techniques do you typically use?";
    lit "How do you approach exploratory data analysis (EDA)?";
    lit "What is your experience with machine learning algorithms like regression or classification?";
    lit "Explain a time you optimized a model to improve accuracy.";
    lit "Which tools and frameworks do you prefer for data visualization?";
    lit "How do you deal with imbalanced datasets?" ].

Definition generate_cloud_engineer_questions : list str :=
  [ lit "What is your experience with cloud platforms like AWS, Azure, or Google Cloud?";
    lit "How do you ensure high availability and fault tolerance in the cloud?";
    lit "What is the difference between IaaS, PaaS, and SaaS?";
    lit "Explain how you approach security in cloud environments.";
    lit "What is your experience with containerization and orchestration tools like Docker and Kubernetes?";
    lit "How do you monitor cloud infrastructure and services?" ].

Definition generate_full_stack_developer_questions : list str :=
  [ lit "How do you ensure communication between the front-end and back-end of a full-stack application?";
    lit "What technologies do you use for building RESTful APIs?";
    lit "How would you handle user authentication and authorization in a web application?";
    lit "Explain the differences between SQL and NoSQL databases.";
    lit "How do you optimize the performance of both front-end and back-end systems?";
    lit "Can you walk us through your development process for a full-stack application?" ].

Definition generate_devops_engineer_questions : list str :=
  [ lit "What is your experience with continuous integration/continuous deployment (CI/CD)?";
    lit "How do you monitor system performance and ensure reliability?";
    lit "Can you explain the concept of infrastructure as code (IaC)?";
    lit "What tools do you use for automation and configuration management?";
    lit "How do you handle scaling in a cloud environment?";
    lit "Explain your approach to disaster recovery and business continuity." ].

Definition generate_front_end_developer_questions : list str :=
  [ lit "What is your experience with front-end frameworks like React, Angular, or Vue?";
    lit "How do you ensure responsive design across multiple devices?";
    lit "What is the difference between server-side rendering and client-side rendering?";
    lit "How do you optimize the performance of a front-end application?";
    lit "Can you explain the concept of state management in a front-end application?";
    lit "How do you handle cross-browser compatibility issues?" ].

Definition generate_back_end_developer_questions : list str :=
  [ lit "What is your experience with back-end technologies like Node.js, Python, or Ruby?";
    lit "How do you design scalable and maintainable APIs?";
    lit "Can you explain how you handle database migrations?";
    lit "What strategies do you use for error handling and logging?";
    lit "How do you ensure the security of your back-end systems?";
    lit "What is your approach to optimizing database queries for performance?" ].

Definition generate_mobile_application_developer_questions : list str :=
  [ lit "What is your experience with iOS and Android development?";
    lit "How do you manage app performance on different mobile devices?";
    lit "Can you explain the difference between native and hybrid mobile applications?";
    lit "What tools and frameworks do you use for mobile app testing?";
    lit "How do you handle offline functionality in mobile applications?";
    lit "What is your experience with mobile app security?" ].

Definition generate_cybersecurity_analyst_questions : list str :=
  [ lit "What is your experience with vulnerability assessments and penetration testing?";
    lit "How do you stay updated on the latest security threats and trends?";
    lit "Can you explain the difference between symmetric and asymmetric encryption?";
    lit "What strategies do you use to secure an organization's network?";
    lit "How do you approach incident response and handling a security breach?";
    lit "What tools do you use for network security monitoring?" ].

Definition generate_database_administrator_questions : list str :=
  [ lit "What is your experience with database optimization and indexing?";
    lit "How do you handle database backups and recovery?";
    lit "Explain your experience with database clustering and replication.";
    lit "What is your approach to data security and encryption in databases?";
    lit "How do you ensure database high availability and fault tolerance?";
    lit "Can you explain the differences between relational and non-relational databases?" ].

Definition generate_system_administrator_questions : list str :=
  [ lit "What is your experience with system monitoring and troubleshooting?";
    lit "How do you manage and configure servers for scalability?";
    lit "Can you explain the concept of virtualization and your experience with it?";
    lit "What tools do you use for automation and configuration management?";
    lit "How do you ensure the security of the systems you manage?";
    lit "Explain your experience with network configuration and firewall management." ].

Definition generate_network_engineer_questions : list str :=
  [ lit "What is your experience with network protocols like TCP/IP and DNS?";
    lit "How do you troubleshoot network connectivity issues?";
    lit "What is your experience with network performance monitoring tools?";
    lit "Can you explain how you would design a network infrastructure for a company?";
    lit "What strategies do you use to secure a network?";
    lit "How do you ensure high availability in network infrastructure?" ].

Definition generate_it_support_specialist_questions : list str :=
  [ lit "How do you prioritize and manage multiple support tickets?";
    lit "Can you explain how you diagnose hardware and software issues?";
    lit "What tools do you use for remote troubleshooting?";
    lit "How do you manage user permissions and access control?";
    lit "What is your approach to maintaining system documentation?";
    lit "How do you ensure a high level of customer satisfaction in support?" ].

Definition generate_web_developer_questions : list str :=
  [ lit "What are the key differences between HTML5 and its previous versions?";
    lit "How do you ensure that a website is responsive across different devices?";
    lit "Explain the box model in CSS and how it affects layout design.";
    lit "What is the difference between synchronous and asynchronous JavaScript?";
    lit "Describe how you would optimize a website for performance and SEO.";
    lit "What tools or frameworks do you use for front-end development?" ].

Definition generate_product_manager_questions : list str :=
  [ lit "What strategies do you use for gathering product requirements?";
    lit "How do you prioritize features in the product roadmap?";
    lit "Can you explain your experience with product lifecycle management?";
    lit "How do you collaborate with engineering, marketing, and design teams?";
    lit "What is your experience with agile methodologies in product development?";
    lit "How do you measure the success of a product after launch?" ].

Definition generate_machine_learning_engineer_questions : list str :=
  [ lit "What machine learning algorithms are you most comfortable with?";
    lit "How do you handle missing data in your models?";
    lit "What techniques do you use for feature selection?";
    lit "Explain a challenging machine learning project you worked on and your approach to solving it.";
    lit "What is your experience with deep learning frameworks like TensorFlow or PyTorch?";
    lit "How do you evaluate the performance of your machine learning models?" ].

Definition generate_it_project_manager_questions : list str :=
  [ lit "Describe your approach to managing complex IT projects with tight deadlines.";
    lit "How do you ensure alignment between stakeholders during a project lifecycle?";
    lit "Explain how you manage risks and resolve conflicts in an IT project.";
    lit "Which project management tools do you prefer and why?";
    lit "How do you ensure your project team remains motivated and productive?";
    lit "Describe a challenging IT project you managed and how you ensured its success." ].

Definition generate_business_analyst_questions : list str :=
  [ lit "How do you identify and document business requirements effectively?";
    lit "What techniques do you use to perform gap analysis?";
    lit "How do you handle conflicting requirements from different stakeholders?";
    lit "Can you explain a time when you improved a business process significantly?";
    lit "Which software or tools do you prefer for creating workflows or wireframes?";
    lit "How do you ensure that your solutions align with organizational goals?" ].

Definition generate_technical_support_engineer_questions : list str :=
  [ lit "How do you troubleshoot and resolve technical issues under pressure?";
    lit "Describe your experience with handling escalated support tickets.";
    lit "What tools or software do you prefer for remote troubleshooting?";
    lit "How do you communicate technical concepts to non-technical users?";
    lit "Explain a time when you solved a recurring issue in your support role.";
    lit "How do you stay updated on the latest technologies and troubleshooting techniques?" ].

Definition generate_quality_assurance_engineer_questions : list str :=
  [ lit "How do you design effective test cases for complex applications?";
    lit "What strategies do you use for ensuring thorough regression testing?";
    lit "How do you prioritize bugs during the software testing process?";
    lit "What automation tools have you used, and how do you evaluate their effectiveness?";
    lit "Describe a time when you identified a critical bug late in the development cycle.";
    lit "How do you collaborate with developers to improve software quality?" ].

Definition generate_data_engineer_questions : list str :=
  [ lit "How do you design and optimize data pipelines for large-scale datasets?";
    lit "What experience do you have with distributed systems like Hadoop or Spark?";
    lit "How do you ensure data quality and integrity in your ETL processes?";
    lit "What tools or platforms do you use for real-time data processing?";
    lit "Explain how you have used cloud platforms for data engineering tasks.";
    lit "How do you manage and secure sensitive data in compliance with regulations?" ].

Definition generate_ai_engineer_questions : list str :=
  [ lit "What is your experience with training and fine-tuning machine learning models?";
    lit "How do you optimize neural networks for performance and accuracy?";
    lit "Describe a project where you applied AI to solve a real-world problem.";
    lit "What frameworks and libraries do you prefer for AI development?";
    lit "How do you handle bias in AI models during development?";
    lit "What strategies do you use to deploy AI solutions into production?" ].

Definition generate_ux_ui_designer_questions : list str :=
  [ lit "How do you approach user research to inform your design process?";
    lit "What tools do you prefer for wireframing and prototyping?";
    lit "Describe how you have improved the usability of a product through design.";
    lit "How do you balance user needs with business goals in your designs?";
    lit "Explain how you collaborate with developers to implement your designs.";
    lit "What strategies do you use to gather and act on user feedback?" ].

Definition generate_it_consultant_questions : list str :=
  [ lit "How do you assess a company's IT infrastructure to recommend improvements?";
    lit "Describe a project where you implemented significant IT changes successfully.";
    lit "What methodologies do you use to ensure IT projects meet business goals?";
    lit "How do you stay updated with emerging technologies to advise clients?";
    lit "Explain a time when you had to manage resistance to IT changes.";
    lit "What tools do you use for conducting IT audits or assessments?" ].

Definition generate_solutions_architect_questions : list str :=
  [ lit "How do you ensure a solution architecture meets both technical and business needs?";
    lit "Describe your approach to creating scalable and secure system designs.";
    lit "What cloud platforms do you have experience with, and how have you used them?";
    lit "How do you handle trade-offs between technical and cost considerations?";
    lit "Explain a time when you designed a solution that solved a critical problem.";
    lit "How do you work with stakeholders to validate solution requirements?" ].

Definition generate_it_operations_manager_questions : list str :=
  [ lit "How do you manage and optimize IT operations for maximum efficiency?";
    lit "What metrics do you track to evaluate IT operational performance?";
    lit "Describe your approach to managing incident response and minimizing downtime.";
    lit "How do you ensure compliance with IT policies and regulations?";
    lit "Explain a time when you successfully managed a major IT infrastructure upgrade.";
    lit "How do you prioritize IT investments to align with business goals?" ].

Definition generate_cto_questions : list str :=
  [ lit "How do you develop and communicate a clear technology vision for the company?";
    lit "What strategies do you use to align technology with business objectives?";
    lit "Describe a time when you led a major technology transformation in an organization.";
    lit "How do you manage competing priorities for technology investment?";
    lit "Explain your approach to building and managing a high-performing IT team.";
    lit "What emerging technologies do you believe will have the biggest impact in the future?" ].

Definition generate_security_engineer_questions : list str :=
  [ lit "How do you approach securing a network against potential threats?";
    lit "What tools and techniques do you use to conduct penetration testing?";
    lit "How do you stay updated with the latest cybersecurity vulnerabilities and threats?";
    lit "Describe a time when you responded to a security breach. What was your process?";
    lit "What experience do you have with implementing SIEM (Security Information and Event Management) systems?";
    lit "How do you ensure compliance with data security regulations such as GDPR or HIPAA?" ].

Definition generate_it_auditor_questions : list str :=
  [ lit "How do you evaluate an organization" ++ [226; 8364; 8482]%N ++ lit "s IT systems for compliance and security?";
    lit "What frameworks or standards do you use for IT audits (e.g., ISO 27001, COBIT)?";
    lit "Describe a time when you identified a significant risk during an audit. How did you address it?";
    lit "How do you prioritize tasks when auditing multiple systems or processes?";
    lit "What tools or software do you use to perform IT audits effectively?";
    lit "How do you communicate findings and recommendations to non-technical stakeholders?" ].

Definition generate_software_architect_questions : list str :=
  [ lit "How do you design scalable and maintainable software architectures?";
    lit "What tools and techniques do you use to document system architectures?";
    lit "Describe your approach to selecting technologies for a new project.";
    lit "How do you ensure alignment between development teams and architectural goals?";
    lit "Explain a time when you had to refactor an existing system to improve performance or scalability.";
    lit "How do you manage technical debt in long-term projects?" ].

Definition generate_scrum_master_questions : list str :=
  [ lit "How do you ensure that your team adheres to Agile principles and Scrum practices?";
    lit "Describe your process for handling team conflicts during a sprint.";
    lit "What tools do you use to manage sprint planning and track progress?";
    lit "How do you measure and improve team velocity over time?";
    lit "Explain a time when you helped a team overcome obstacles to deliver a project on time.";
    lit "How do you communicate with stakeholders about project progress and risks?" ].

Definition generate_technical_writer_questions : list str :=
  [ lit "How do you create technical documentation that is accessible to various audiences?";
    lit "What tools or platforms do you use for writing and managing documentation?";
    lit "Describe your process for gathering information from subject matter experts.";
    lit "How do you ensure accuracy and clarity in technical documents?";
    lit "Can you provide an example of a complex topic you simplified through documentation?";
    lit "How do you stay updated on tools and trends in technical writing?" ].

Definition generate_network_security_analyst_questions : list str :=
  [ lit "How do you monitor and analyze network traffic for potential security threats?";
    lit "What tools do you use to detect and mitigate network vulnerabilities?";
    lit "Describe your process for responding to a DDoS (Distributed Denial of Service) attack.";
    lit "How do you implement and manage firewalls and intrusion detection systems?";
    lit "What strategies do you use to educate employees on network security best practices?";
    lit "How do you ensure compliance with network security standards and regulations?" ].

Definition generate_game_developer_questions : list str :=
  [ lit "What game engines are you proficient in, and how have you used them in projects?";
    lit "Describe your process for optimizing game performance across platforms.";
    lit "How do you design engaging gameplay mechanics that enhance the user experience?";
    lit "What tools do you use for debugging and testing games during development?";
    lit "Explain how you work with artists and designers to implement game assets.";
    lit "Describe a challenging bug you encountered during development and how you resolved it." ].

Definition generate_embedded_systems_engineer_questions : list str :=
  [ lit "What microcontrollers or processors have you worked with in your projects?";
    lit "How do you ensure real-time performance in embedded systems?";
    lit "Describe your experience with developing firmware for hardware devices.";
    lit "What debugging tools do you use for testing embedded systems?";
    lit "How do you optimize power consumption in low-power embedded devices?";
    lit "Explain a time when you designed a system with strict memory or resource constraints." ].

Definition generate_erp_consultant_questions : list str :=
  [ lit "What ERP platforms have you worked with, and how have you implemented them?";
    lit "How do you ensure a smooth transition during an ERP system upgrade or migration?";
    lit "What strategies do you use to customize ERP solutions for specific business needs?";
    lit "Describe a challenging ERP implementation project and how you managed it.";
    lit "How do you train employees on using new ERP systems effectively?";
    lit "What tools do you use for integrating ERP systems with other enterprise applications?" ].

Definition generate_salesforce_developer_questions : list str :=
  [ lit "What experience do you have with developing custom Salesforce applications?";
    lit "How do you use Apex and Visualforce in your development process?";
    lit "Describe your approach to integrating Salesforce with external systems.";
    lit "What tools or strategies do you use to optimize Salesforce performance?";
    lit "How do you ensure data security and compliance in Salesforce applications?";
    lit "Explain a time when you customized Salesforce to meet a unique business requirement." ].

Definition generate_big_data_engineer_questions : list str :=
  [ lit "What tools and frameworks do you prefer for handling big data (e.g., Hadoop, Spark)?";
    lit "How do you design and maintain scalable big data pipelines?";
    lit "Describe your experience with managing structured and unstructured datasets.";
    lit "What strategies do you use to ensure data consistency and quality in big data systems?";
    lit "How have you implemented data security in big data environments?";
    lit "Explain a challenging big data project you worked on and how you delivered results." ].

Definition generate_bi_developer_questions : list str :=
  [ lit "What BI tools and platforms are you proficient in (e.g., Tableau, Power BI)?";
    lit "How do you design dashboards that effectively communicate business insights?";
    lit "Describe your experience with writing complex SQL queries for data analysis.";
    lit "What strategies do you use to ensure accuracy and reliability in BI reports?";
    lit "Explain how you work with stakeholders to gather requirements for BI projects.";
    lit "Describe a time when your BI solution had a significant impact on business decisions." ].

Definition generate_information_security_analyst_questions : list str :=
  [ lit "How do you assess and mitigate security risks within an organization?";
    lit "What tools do you use for vulnerability scanning and threat detection?";
    lit "Describe your process for responding to and investigating security incidents.";
    lit "How do you ensure compliance with information security standards (e.g., ISO 27001)?";
    lit "Explain a time when you successfully prevented a security breach.";
    lit "What strategies do you use to educate employees on information security best practices?" ].

Definition generate_robotics_engineer_questions : list str :=
  [ lit "What programming languages and frameworks do you use for robotics development?";
    lit "Describe your experience with designing and implementing robotic control systems.";
    lit "How do you integrate sensors and actuators into robotic systems?";
    lit "What strategies do you use to optimize robot performance in dynamic environments?";
    lit "Describe a challenging robotics project you worked on and how you overcame obstacles.";
    lit "How do you approach testing and debugging in robotic systems?" ].

Definition generate_cloud_solutions_architect_questions : list str :=
  [ lit "What experience do you have with designing cloud-based architectures for scalability and security?";
    lit "Describe your approach to choosing between different cloud service providers (e.g., AWS, Azure, GCP).";
    lit "How do you ensure compliance with data security and privacy regulations in cloud solutions?";
    lit "What tools and techniques do you use for cost optimization in cloud architectures?";
    lit "Explain a complex cloud migration project you worked on and how you managed it.";
    lit "How do you handle hybrid cloud or multi-cloud environments effectively?" ].

Definition generate_computer_vision_engineer_questions : list str :=
  [ lit "What tools and frameworks do you use for computer vision development (e.g., OpenCV, TensorFlow)?";
    lit "Describe your experience with designing and training deep learning models for vision tasks.";
    lit "How do you optimize computer vision algorithms for real-time performance?";
    lit "What strategies do you use to collect and preprocess data for computer vision projects?";
    lit "Explain a challenging computer vision problem you solved and the techniques you used.";
    lit "How do you ensure the robustness and accuracy of your computer vision models?" ].

Definition generate_penetration_tester_questions : list str :=
  [ lit "What tools and techniques do you use to identify and exploit vulnerabilities in systems?";
    lit "Describe your process for performing a penetration test from start to finish.";
    lit "How do you report and communicate findings to stakeholders effectively?";
    lit "What strategies do you use to stay updated with the latest exploits and attack methods?";
    lit "Explain a challenging penetration test you conducted and the outcomes.";
    lit "How do you ensure compliance with ethical hacking and legal regulations?" ].

Definition generate_data_analyst_questions : list str :=
  [ lit "What tools and platforms do you use for data analysis (e.g., Excel, Python, Tableau)?";
    lit "Describe your experience with cleaning and preprocessing large datasets.";
    lit "How do you communicate your findings effectively to non-technical stakeholders?";
    lit "What techniques do you use for identifying trends and patterns in data?";
    lit "Explain a data analysis project where your insights had a significant impact.";
    lit "How do you ensure data accuracy and reliability in your reports?" ].

Definition generate_blockchain_developer_questions : list str :=
  [ lit "What blockchain platforms are you proficient in (e.g., Ethereum, Hyperledger)?";
    lit "Describe your experience with developing smart contracts using Solidity or other languages.";
    lit "How do you ensure the security of blockchain applications against potential vulnerabilities?";
    lit "What tools do you use for testing and debugging blockchain-based solutions?";
    lit "Explain a blockchain project you worked on and the challenges you faced.";
    lit "How do you optimize the performance of blockchain networks and applications?" ].

Definition generate_it_compliance_specialist_questions : list str :=
  [ lit "What frameworks or standards do you use to ensure IT compliance (e.g., GDPR, ISO 27001)?";
    lit "Describe your process for conducting IT compliance audits.";
    lit "How do you stay updated with changes in compliance regulations?";
    lit "What strategies do you use to train employees on IT compliance requirements?";
    lit "Explain a time when you identified and resolved a compliance issue.";
    lit "How do you collaborate with other departments to maintain IT compliance?" ].

Definition generate_software_development_manager_questions : list str :=
  [ lit "How do you manage and prioritize tasks for development teams?";
    lit "Describe your approach to ensuring the quality and scalability of software projects.";
    lit "How do you handle conflicts or challenges within your development team?";
    lit "What strategies do you use to ensure on-time delivery of software projects?";
    lit "Explain a time when you implemented a new process to improve development efficiency.";
    lit "How do you balance technical leadership with project management responsibilities?" ].

Definition generate_virtual_reality_developer_questions : list str :=
  [ lit "What tools and frameworks do you use for VR development (e.g., Unity, Unreal Engine)?";
    lit "Describe your experience with designing immersive VR environments.";
    lit "How do you optimize VR applications for performance and user experience?";
    lit "What strategies do you use to integrate VR with other technologies (e.g., AR, AI)?";
    lit "Explain a VR project you worked on and the challenges you faced.";
    lit "How do you ensure accessibility and usability in VR applications?" ].

(** The source defines this function twice (lines 631 and 714); the
    second definition replaces the first before any call. *)
Definition generate_site_reliability_engineer_questions : list str :=
  [ lit "How do you monitor and maintain system reliability in a distributed environment?";
    lit "Describe your experience with incident response and root cause analysis.";
    lit "What tools and techniques do you use to automate infrastructure and deployment?";
    lit "How do you ensure high availability and fault tolerance in critical systems?";
    lit "Can you explain the concept of SLOs, SLIs, and SLAs and how you use them?";
    lit "What strategies do you use to scale systems to handle increased demand?" ].

Definition generate_infrastructure_engineer_questions : list str :=
  [ lit "What is your experience in designing and implementing IT infrastructure?";
    lit "How do you handle network bottlenecks and improve infrastructure performance?";
    lit "Describe a project where you successfully migrated infrastructure to the cloud.";
    lit "What tools do you use for infrastructure monitoring and management?";
    lit "How do you ensure security and compliance in IT infrastructure?";
    lit "Can you explain the process of capacity planning and resource allocation?" ].

Definition generate_it_operations_analyst_questions : list str :=
  [ lit "How do you ensure smooth day-to-day IT operations?";
    lit "What tools do you use to monitor IT systems and prevent downtime?";
    lit "Describe your experience with ITIL or other service management frameworks.";
    lit "How do you handle escalations and prioritize incident response?";
    lit "What methods do you use to optimize IT operations and improve efficiency?";
    lit "Can you share an example where you implemented automation in IT operations?" ].

Definition generate_digital_marketing_specialist_questions : list str :=
  [ lit "What is your experience with SEO and PPC campaigns?";
    lit "How do you analyze and improve the performance of digital marketing strategies?";
    lit "Which tools do you prefer for social media marketing and why?";
    lit "How do you measure ROI for digital marketing campaigns?";
    lit "Can you explain your approach to content marketing and brand awareness?";
    lit "Describe a successful campaign you managed and the results you achieved." ].

Definition generate_network_architect_questions : list str :=
  [ lit "How do you design scalable and secure network architectures?";
    lit "What experience do you have with SDN (Software-Defined Networking)?";
    lit "Can you describe a time you optimized a network for performance and reliability?";
    lit "What tools and protocols do you use to monitor network traffic?";
    lit "How do you ensure network security against evolving threats?";
    lit "What is your process for evaluating and implementing new networking technologies?" ].

Definition generate_help_desk_technician_questions : list str :=
  [ lit "How do you handle troubleshooting technical issues for end-users?";
    lit "Describe a situation where you resolved a high-priority IT issue.";
    lit "What is your experience with ticketing systems like Jira or ServiceNow?";
    lit "How do you communicate technical solutions to non-technical users?";
    lit "What steps do you take to document recurring issues and their solutions?";
    lit "How do you stay updated with the latest IT support tools and techniques?" ].

Definition generate_configuration_manager_questions : list str :=
  [ lit "How do you manage and maintain configuration baselines in IT systems?";
    lit "Describe your experience with version control systems like Git.";
    lit "What tools do you use for configuration management and automation?";
    lit "How do you ensure compliance with configuration standards and policies?";
    lit "Can you explain the importance of change management in configuration?";
    lit "Describe a scenario where you resolved a critical configuration issue." ].

Definition generate_systems_analyst_questions : list str :=
  [ lit "How do you gather and analyze business requirements for system design?";
    lit "What tools and techniques do you use for process modeling and analysis?";
    lit "Describe your experience with systems integration and testing.";
    lit "How do you ensure the scalability and efficiency of system solutions?";
    lit "What methods do you use to stay updated on emerging technologies?";
    lit "Can you provide an example of a successful system implementation project?" ].

Definition generate_database_developer_questions : list str :=
  [ lit "What is your experience in designing and optimizing database schemas?";
    lit "How do you ensure database performance and scalability?";
    lit "Describe your experience with stored procedures, triggers, and indexing.";
    lit "What tools do you use for database development and management?";
    lit "How do you handle database migrations and data integrity issues?";
    lit "Can you explain your approach to ensuring database security?" ].

Definition generate_it_business_partner_questions : list str :=
  [ lit "How do you align IT strategies with business goals?";
    lit "Describe your experience collaborating with stakeholders to define IT priorities.";
    lit "What methods do you use to measure the ROI of IT initiatives?";
    lit "How do you identify opportunities for digital transformation in a business?";
    lit "What is your approach to managing IT budgets and resources?";
    lit "Can you share an example where you improved business outcomes through IT?" ].

Definition generate_cloud_consultant_questions : list str :=
  [ lit "What is your experience with cloud platforms like AWS, Azure, or GCP?";
    lit "How do you design cloud architectures to meet business requirements?";
    lit "Describe a successful cloud migration project you led or participated in.";
    lit "What tools and practices do you use for cloud cost optimization?";
    lit "How do you ensure security and compliance in cloud environments?";
    lit "Can you explain the advantages of serverless computing in the cloud?" ].

Definition generate_virtualization_engineer_questions : list str :=
  [ lit "What is your experience with virtualization platforms like VMware or Hyper-V?";
    lit "How do you optimize virtualized environments for performance and efficiency?";
    lit "Describe your experience with virtual machine migrations and backups.";
    lit "What tools do you use for monitoring and managing virtualized systems?";
    lit "How do you ensure security in a virtualized infrastructure?";
    lit "Can you explain the benefits of containerization over traditional virtualization?" ].

Definition generate_e_commerce_specialist_questions : list str :=
  [ lit "What is your experience with e-commerce platforms like Shopify or Magento?";
    lit "How do you optimize the user experience for e-commerce websites?";
    lit "Describe a successful strategy you used to increase online sales.";
    lit "What tools do you use for tracking and analyzing e-commerce metrics?";
    lit "How do you ensure security and compliance for online transactions?";
    lit "Can you share your approach to managing product catalogs and inventory online?" ].

Definition generate_it_trainer_questions : list str :=
  [ lit "What is your experience in developing and delivering IT training programs?";
    lit "How do you assess the effectiveness of your training sessions?";
    lit "Describe a time you trained a team on a new technology or tool.";
    lit "What methods do you use to engage learners during IT training?";
    lit "How do you customize training materials for different skill levels?";
    lit "What tools and platforms do you use for online IT training?" ].

Definition generate_technical_project_manager_questions : list str :=
  [ lit "What is your experience in managing technical projects from start to finish?";
    lit "How do you ensure projects stay on time and within budget?";
    lit "Describe your approach to risk management in technical projects.";
    lit "What tools do you use for project planning and tracking progress?";
    lit "How do you handle changes in project scope or requirements?";
    lit "Can you share an example of a challenging project you successfully delivered?" ].

Definition generate_mobile_ux_designer_questions : list str :=
  [ lit "What is your process for designing user-friendly mobile interfaces?";
    lit "How do you conduct usability testing for mobile applications?";
    lit "Describe your experience with wireframing and prototyping tools.";
    lit "What are the key considerations for designing cross-platform mobile apps?";
    lit "How do you stay updated with trends in mobile UX design?";
    lit "Can you share an example of a successful mobile UX design project you worked on?" ].

Definition generate_noc_technician_questions : list str :=
  [ lit "How do you monitor and troubleshoot network issues in real-time?";
    lit "What tools do you use for network performance monitoring?";
    lit "Describe your experience with handling network outages and escalations.";
    lit "How do you prioritize incidents in a high-pressure environment?";
    lit "What protocols and standards do you follow for network maintenance?";
    lit "Can you explain your process for documenting recurring network problems?" ].

Definition generate_release_manager_questions : list str :=
  [ lit "What is your approach to coordinating software releases across teams?";
    lit "How do you ensure a smooth deployment process with minimal downtime?";
    lit "Describe your experience with version control and CI/CD tools.";
    lit "How do you manage and mitigate risks during a release?";
    lit "What is your process for tracking post-release issues and feedback?";
    lit "Can you provide an example of a challenging release you successfully managed?" ].

Definition generate_it_change_manager_questions : list str :=
  [ lit "What is your process for managing IT changes in an organization?";
    lit "How do you communicate and coordinate with stakeholders during changes?";
    lit "Describe your experience with change management frameworks like ITIL.";
    lit "How do you assess the risks and impact of proposed changes?";
    lit "What tools do you use to track and document IT change requests?";
    lit "Can you share an example of a successful IT change implementation?" ].

Definition generate_data_governance_analyst_questions : list str :=
  [ lit "What is your experience with establishing data governance policies?";
    lit "How do you ensure data compliance with regulations like GDPR or CCPA?";
    lit "Describe your process for managing data quality and integrity.";
    lit "What tools do you use for data lineage and cataloging?";
    lit "How do you collaborate with stakeholders to enforce data governance?";
    lit "Can you provide an example of improving data governance in a previous role?" ].

Definition generate_performance_engineer_questions : list str :=
  [ lit "What tools do you use to identify and resolve system performance issues?";
    lit "Describe your experience with load testing and performance benchmarking.";
    lit "How do you optimize application performance under heavy loads?";
    lit "What metrics do you prioritize when evaluating system performance?";
    lit "How do you troubleshoot and address performance bottlenecks?";
    lit "Can you share an example of a successful performance optimization project?" ].

Definition generate_bi_analyst_questions : list str :=
  [ lit "What is your experience with BI tools like Tableau or Power BI?";
    lit "How do you design and build interactive dashboards for stakeholders?";
    lit "Describe your process for gathering and analyzing business requirements.";
    lit "What methods do you use to validate data accuracy and insights?";
    lit "How do you ensure BI solutions align with business goals?";
    lit "Can you provide an example of using BI to drive business decisions?" ].

Definition generate_sap_consultant_questions : list str :=
  [ lit "What modules of SAP are you most experienced with?";
    lit "How do you gather requirements and customize SAP solutions for clients?";
    lit "Describe a successful SAP implementation project you worked on.";
    lit "What is your approach to troubleshooting SAP system issues?";
    lit "How do you ensure data migration and integration with SAP systems?";
    lit "Can you share your experience with SAP S/4HANA and its benefits?" ].

Definition generate_digital_transformation_consultant_questions : list str :=
  [ lit "What is your approach to identifying areas for digital transformation?";
    lit "Describe your experience with implementing new technologies in organizations.";
    lit "How do you measure the success of digital transformation initiatives?";
    lit "What methods do you use to manage resistance to change during transformations?";
    lit "How do you ensure alignment between digital strategies and business goals?";
    lit "Can you provide an example of a successful digital transformation project?" ].

Definition generate_it_asset_manager_questions : list str :=
  [ lit "What is your process for tracking and managing IT assets?";
    lit "How do you ensure compliance with software licenses and regulations?";
    lit "Describe your experience with IT asset management tools.";
    lit "What methods do you use to optimize the lifecycle of IT assets?";
    lit "How do you handle asset disposals and data security during decommissioning?";
    lit "Can you share an example of improving efficiency through IT asset management?" ].

Definition generate_game_designer_questions : list str :=
  [ lit "What is your process for creating engaging gameplay mechanics?";
    lit "How do you balance storytelling, design, and user experience in games?";
    lit "Describe your experience with game engines like Unity or Unreal Engine.";
    lit "What methods do you use to prototype and test game concepts?";
    lit "How do you collaborate with developers and artists during game production?";
    lit "Can you share an example of a successful game design project you worked on?" ].

Definition generate_social_media_analyst_questions : list str :=
  [ lit "What tools do you use to monitor and analyze social media performance?";
    lit "How do you measure the success of social media campaigns?";
    lit "Describe your approach to audience segmentation and targeting.";
    lit "How do you use social media analytics to drive engagement strategies?";
    lit "What methods do you use to track brand sentiment and competitor analysis?";
    lit "Can you share an example of improving ROI through social media insights?" ].

(** The dictionary literal of [generate_questions_for_job], in source
    order. *)
Definition questions : list (str * list str) :=
  [ (lit "Software Engineer", generate_software_engineer_questions);
    (lit "Data Scientist", generate_data_scientist_questions);
    (lit "Cloud Engineer", generate_cloud_engineer_questions);
    (lit "Full Stack Developer", generate_full_stack_developer_questions);
    (lit "DevOps Engineer", generate_devops_engineer_questions);
    (lit "Front End Developer", generate_front_end_developer_questions);
    (lit "Back End Developer", generate_back_end_developer_questions);
    (lit "Mobile Application Developer", generate_mobile_application_developer_questions);
    (lit "Cybersecurity Analyst", generate_cybersecurity_analyst_questions);
    (lit "Database Administrator", generate_database_administrator_questions);
    (lit "System Administrator", generate_system_administrator_questions);
    (lit "Network Engineer", generate_network_engineer_questions);
    (lit "IT Support Specialist", generate_it_support_specialist_questions);
    (lit "Web Developer", generate_web_developer_questions);
    (lit "Product Manager", generate_product_manager_questions);
    (lit "Machine Learning Engineer", generate_machine_learning_engineer_questions);
    (lit "IT Project Manager", generate_it_project_manager_questions);
    (lit "Business Analyst", generate_business_analyst_questions);
    (lit "Technical Support Engineer", generate_technical_support_engineer_questions);
    (lit "Quality Assurance Engineer", generate_quality_assurance_engineer_questions);
    (lit "Data Engineer", generate_data_engineer_questions);
    (lit "Artificial Intelligence Engineer", generate_ai_engineer_questions);
    (lit "UI/UX Designer", generate_ux_ui_designer_questions);
    (lit "IT Consultant", generate_it_consultant_questions);
    (lit "Solutions Architect", generate_solutions_architect_questions);
    (lit "IT Operations Manager", generate_it_operations_manager_questions);
    (lit "Chief Technology Officer", generate_cto_questions);
    (lit "Security Engineer", generate_security_engineer_questions);
    (lit "IT Auditor", generate_it_auditor_questions);
    (lit "Software Architect", generate_software_architect_questions);
    (lit "Scrum Master", generate_scrum_master_questions);
    (lit "Technical Writer", generate_technical_writer_questions);
    (lit "Network Security Analyst", generate_network_security_analyst_questions);
    (lit "Game Developer", generate_game_developer_questions);
    (lit "Embedded Systems Engineer", generate_embedded_systems_engineer_questions);
    (lit "ERP Consultant", generate_erp_consultant_questions);
    (lit "Salesforce Developer", generate_salesforce_developer_questions);
    (lit "Big Data Engineer", generate_big_data_engineer_questions);
    (lit "BI Developer", generate_bi_developer_questions);
    (lit "Information Security Analyst", generate_information_security_analyst_questions);
    (lit "Robotics Engineer", generate_robotics_engineer_questions);
    (lit "Cloud Solutions Architect", generate_cloud_solutions_architect_questions);
    (lit "Computer Vision Engineer", generate_computer_vision_engineer_questions);
    (lit "Site Reliability Engineer", generate_site_reliability_engineer_questions);
    (lit "Penetration Tester", generate_penetration_tester_questions);
    (lit "Data Analyst", generate_data_analyst_questions);
    (lit "Blockchain Developer", generate_blockchain_developer_questions);
    (lit "IT Compliance Specialist", generate_it_compliance_specialist_questions);
    (lit "Software Development Manager", generate_software_development_manager_questions);
    (lit "Virtual Reality Developer", generate_virtual_reality_developer_questions);
    (lit "Infrastructure Engineer", generate_infrastructure_engineer_questions);
    (lit "IT Operations Analyst", generate_it_operations_analyst_questions);
    (lit "Digital Marketing Specialist", generate_digital_marketing_specialist_questions);
    (lit "Network Architect", generate_network_architect_questions);
    (lit "Help Desk Technician", generate_help_desk_technician_questions);
    (lit "Configuration Manager", generate_configuration_manager_questions);
    (lit "Systems Analyst", generate_systems_analyst_questions);
    (lit "Database Developer", generate_database_developer_questions);
    (lit "IT Business Partner", generate_it_business_partner_questions);
    (lit "Cloud Consultant", generate_cloud_consultant_questions);
    (lit "Virtualization Engineer", generate_virtualization_engineer_questions);
    (lit "E-commerce Specialist", generate_e_commerce_specialist_questions);
    (lit "IT Trainer", generate_it_trainer_questions);
    (lit "Technical Project Manager", generate_technical_project_manager_questions);
    (lit "Mobile UX Designer", generate_mobile_ux_designer_questions);
    (lit "Network Operations Center (NOC) Technician", generate_noc_technician_questions);
    (lit "Release Manager", generate_release_manager_questions);
    (lit "IT Change Manager", generate_it_change_manager_questions);
    (lit "Data Governance Analyst", generate_data_governance_analyst_questions);
    (lit "Performance Engineer", generate_performance_engineer_questions);
    (lit "BI Analyst", generate_bi_analyst_questions);
    (lit "SAP Consultant", generate_sap_consultant_questions);
    (lit "Digital Transformation Consultant", generate_digital_transformation_consultant_questions);
    (lit "IT Asset Manager", generate_it_asset_manager_questions);
    (lit "Game Designer", generate_game_designer_questions);
    (lit "Social Media Analyst", generate_social_media_analyst_questions) ].

(** A dictionary literal is kept as its list of [key: value] entries.
    Looking a key up returns the value of its last entry, as a later entry
    of a Python dictionary display replaces an earlier one with the same
    key. *)
Fixpoint dict_get {V : Type} (d : list (str * V)) (k : str) : option V :=
  match d with
  | [] => None
  | (k', v) :: d' =>
      match dict_get d' k with
      | Some v' => Some v'
      | None => if str_eqb k' k then Some v else None
      end
  end.

Definition dict_keys {V : Type} (d : list (str * V)) : list str :=
  map fst d.

Fixpoint no_dup_keys (l : list str) : bool :=
  match l with
  | [] => true
  | x :: l' => negb (existsb (str_eqb x) l') && no_dup_keys l'
  end.

(** The fallback list, four f-strings around the stripped title. *)
Definition default_questions (job_title : str) : list str :=
  [ lit "What relevant experience do you have for the role of "
      ++ job_title ++ lit "?";
    lit "What technologies have you worked with that are essential for "
      ++ job_title ++ lit "?";
    lit "Describe a challenge you faced in a similar role to "
      ++ job_title ++ lit " and how you resolved it.";
    lit "How would you approach a project in the position of "
      ++ job_title ++ lit "?" ].

(** [job_title in questions] followed by [questions[job_title]] is one
    lookup here: [Some] when the key is present, [None] otherwise. *)
Definition generate_questions_for_job (job_title : str) : list str :=
  let job_title := strip job_title in
  match dict_get questions job_title with
  | Some qs => qs
  | None => default_questions job_title
  end.

(** A question [q] carries the text [t] somewhere inside it. *)
Definition interpolates (t q : str) : Prop :=
  exists pre post, q = pre ++ t ++ post.

(** ** Exceptions *)

Inductive exn : Type :=
| ValueError (msg : str)
| KeyError (key : str)
| IndexError
| RuntimeError (msg : str).

Inductive result (A : Type) : Type :=
| Return (a : A)
| Raise (e : exn).

Arguments Return {A} a.
Arguments Raise {A} e.

Definition bind {A B : Type} (c : result A) (k : A -> result B) : result B :=
  match c with
  | Return a => k a
  | Raise e => Raise e
  end.

Notation "x <- c ;; k" := (bind c (fun x => k))
  (at level 61, c at next level, right associativity).

(** A list comprehension [[f(x) for x in l]]: the elements are evaluated in
    order and the first exception ends the evaluation. *)
Fixpoint mapM {A B : Type} (f : A -> result B) (l : list A)
  : result (list B) :=
  match l with
  | [] => Return []
  | x :: l' => y <- f x ;; ys <- mapM f l' ;; Return (y :: ys)
  end.

(** [l[i]] for an index that is not negative. *)
Definition getitem {A : Type} (l : list A) (i : nat) : result A :=
  match nth_error l i with
  | Some a => Return a
  | None => Raise IndexError
  end.

(** [d[k]] on a dictionary. *)
Definition dict_getitem {V : Type} (d : list (str * V)) (k : str)
  : result V :=
  match dict_get d k with
  | Some v => Return v
  | None => Raise (KeyError k)
  end.

(** ** Resume matcher *)

(** A job of the corpus, as the spec names it. *)
Record JobRecord : Type := { title : str; description : str }.

(** What [collection.get(include=["documents", "metadatas"])] returns: the
    stored documents and, at the same positions, their metadata
    dictionaries. *)
Record get_result : Type :=
  { documents : list str; metadatas : list (list (str * str)) }.

(** The collection that stores a corpus keeps each description as a
    document and each title under the metadata key ["jobTitle"]. *)
Definition collection_get (corpus : list JobRecord) : get_result :=
  {| documents := map description corpus;
     metadatas := map (fun job => [(lit "jobTitle", title job)]) corpus |}.

(** An element of the list stored under ["matched_jobs"]: a dictionary
    with the keys ["job_title"] and ["similarity"], or a plain message. *)
Inductive matched_job : Type :=
| Match (job_title : str) (similarity : Q)
| Message (text : str).

(** The operations of PyMuPDF, scikit-learn and NumPy the module calls.
    Their code is not part of the module, so they are parameters:
    - [fitz_open] reads a PDF stream and gives the text of its pages;
    - [fit_transform] is [TfidfVectorizer(stop_words='english')
      .fit_transform], one row per document, or an exception;
    - [cosine] is the entry [cosine_similarity] computes for two rows;
    - [argsort] is [ndarray.argsort].
    A similarity is a finite binary64 number; it is represented by the
    rational it denotes, which keeps its order. *)
Record Libs : Type :=
  { vec : Type;
    fitz_open : list N -> result (list str);
    fit_transform : list str -> result (list vec);
    cosine : vec -> vec -> Q;
    argsort : list Q -> list nat }.

(** What the matcher relies on:
    - the TF-IDF matrix has one row per document;
    - on documents that are strings the vectorizer fails with a
      [ValueError] only (the empty-vocabulary error);
    - [argsort] gives the indices of the array, arranged so that the values
      they select do not decrease. *)
Record LibsSpec (L : Libs) : Prop :=
  { fit_transform_rows :
      forall docs m, fit_transform L docs = Return m ->
                     length m = length docs;
    fit_transform_error :
      forall docs e, fit_transform L docs = Raise e ->
                     exists msg, e = ValueError msg;
    argsort_perm :
      forall a, Permutation (argsort L a) (seq 0 (length a));
    argsort_sorted :
      forall a, Sorted Qle (map (fun i => nth i a 0%Q) (argsort L a)) }.

(** [a[-n:]], the last [n] elements (all of them when there are fewer). *)
Definition last_n {A : Type} (n : nat) (l : list A) : list A :=
  skipn (length l - n) l.

Section Matcher.

Variable L : Libs.

(** [cosine_similarity(X, Y)], one row of similarities per row of [X]. *)
Definition cosine_similarity (X Y : list (vec L)) : list (list Q) :=
  map (fun x => map (cosine L x) Y) X.

Definition flatten (M : list (list Q)) : list Q := concat M.

(** Lines 45-59: the text of all pages, in order. *)
Definition extract_text_from_pdf (pdf_file : list N) : result str :=
  pdf <- fitz_open L pdf_file ;;
  Return (fold_left (fun text page => text ++ page) pdf []).

(** [cosine_similarities.argsort()[-5:][::-1]], line 135. *)
Definition top_indices (cosine_similarities : list Q) : list nat :=
  rev (last_n 5 (argsort L cosine_similarities)).

(** The body of the [try] block, lines 130-140. *)
Definition rank_jobs (resume_text : str) (job_descriptions : list str)
    (job_titles : list str) : result (list matched_job) :=
  let all_documents := resume_text :: job_descriptions in
  tfidf_matrix <- fit_transform L all_documents ;;
  let cosine_similarities :=
    flatten (cosine_similarity (firstn 1 tfidf_matrix)
                               (skipn 1 tfidf_matrix)) in
  mapM (fun i =>
          t <- getitem job_titles i ;;
          s <- getitem cosine_similarities i ;;
          Return (Match t s))
       (top_indices cosine_similarities).

(** Lines 119-144, from the corpus query on. [results] is the answer of
    [collection.get]. The handler catches [ValueError] and nothing
    else. *)
Definition match_jobs (resume_text : str) (results : get_result)
  : result (list matched_job) :=
  let job_descriptions := documents results in
  job_titles <-
    mapM (fun metadata => dict_getitem metadata (lit "jobTitle"))
         (metadatas results) ;;
  match job_descriptions with
  | [] => Return [Message (lit "No job descriptions available in ChromaDB.")]
  | _ :: _ =>
      match rank_jobs resume_text job_descriptions job_titles with
      | Raise (ValueError e) =>
          Return [Message (lit "Error in processing job matching: " ++ e)]
      | r => r
      end
  end.

(** The whole function; the result is the list under ["matched_jobs"]. *)
Definition process_resume_and_match_jobs (pdf_file : list N)
    (results : get_result) : result (list matched_job) :=
  resume_text <- extract_text_from_pdf pdf_file ;;
  match_jobs resume_text results.

End Matcher.

(** The similarity of a result entry, when it is a match. *)
Definition similarity_of (r : matched_job) : option Q :=
  match r with
  | Match _ s => Some s
  | Message _ => None
  end.

(** Entries in descending order of similarity: each one is at most every
    one before it. *)
Definition descending (sims : list Q) : Prop :=
  StronglySorted (fun a b => (b <= a)%Q) sims.

(** ** An instance of the libraries

    A small executable instance of [Libs], to run the matcher on concrete
    inputs: a document is reduced to its length, two lengths are the more
    similar the closer they are, a batch of empty documents has an empty
    vocabulary, and [argsort] is an insertion sort on the indices. *)

Fixpoint insert_by_score (p : Q * nat) (l : list (Q * nat))
  : list (Q * nat) :=
  match l with
  | [] => [p]
  | q :: l' =>
      if Qle_bool (fst p) (fst q) then p :: l
      else q :: insert_by_score p l'
  end.

Definition score_le (p q : Q * nat) : Prop := (fst p <= fst q)%Q.

Definition sort_by_score (l : list (Q * nat)) : list (Q * nat) :=
  fold_right insert_by_score [] l.

Definition insertion_argsort (a : list Q) : list nat :=
  map snd (sort_by_score (combine a (seq 0 (length a)))).

Definition sample_libs : Libs :=
  {| vec := Q;
     fitz_open := fun stream => Return [stream];
     fit_transform := fun docs =>
       if forallb (fun d => (len d =? 0)%nat) docs
       then Raise (ValueError (lit "empty vocabulary"))
       else Return (map (fun d => of_int (len d)) docs);
     cosine := fun x y => (/ (1 + Qabs (x - y)))%Q;
     argsort := insertion_argsort |}.

Definition sample_corpus : list JobRecord :=
  [ {| title := lit "Data Engineer";
       description := lit "pipelines and warehouses" |};
    {| title := lit "Game Designer"; description := lit "levels" |};
    {| title := lit "IT Trainer"; description := lit "teaching staff" |} ].

(** The message of the empty-corpus case, line 125. *)
Definition no_job_descriptions : matched_job :=
  Message (lit "No job descriptions available in ChromaDB.").

(** The message of the [except ValueError as e] handler, line 142. *)
Definition matching_error (e : str) : matched_job :=
  Message (lit "Error in processing job matching: " ++ e).

(** A result list made of matches only. *)
Definition matches (ranked : list (str * Q)) : list matched_job :=
  map (fun p => Match (fst p) (snd p)) ranked.

(** ** Resume formatting *)

(** [s.split(sep)] for a separator of one character: the pieces between
    the separators, of which there is always at least one. *)
Fixpoint split_on (sep : N) (s : str) : list str :=
  match s with
  | [] => [[]]
  | c :: s' =>
      if (c =? sep)%N then [] :: split_on sep s'
      else match split_on sep s' with
           | piece :: pieces => (c :: piece) :: pieces
           | [] => [[c]]
           end
  end.

(** [s.split()] with no argument: the maximal runs of characters that are
    not whitespace. *)
Fixpoint split_ws (s : str) : list str :=
  match s with
  | [] => []
  | c :: s' =>
      if isspace c then split_ws s'
      else match s' with
           | [] => [[c]]
           | d :: _ =>
               if isspace d then [c] :: split_ws s'
               else match split_ws s' with
                    | w :: ws => (c :: w) :: ws
                    | [] => [[c]]
                    end
           end
  end.

(** [sep.join(l)]. *)
Fixpoint join (sep : str) (l : list str) : str :=
  match l with
  | [] => []
  | [x] => x
  | x :: l' => x ++ sep ++ join sep l'
  end.

(** The case properties of a code point in the Unicode database of the
    interpreter, which is not part of the module:
    [Py_UNICODE_ISUPPER], [Py_UNICODE_ISLOWER] and [Py_UNICODE_ISTITLE]. *)
Record Unicode : Type :=
  { cp_isupper : N -> bool;
    cp_islower : N -> bool;
    cp_istitle : N -> bool }.

(** [s.isupper()] as CPython computes it: the property of the character
    for a string of length 1, false for the empty string, and otherwise no
    lower-case or title-case character and at least one upper-case one. *)
Definition isupper (U : Unicode) (s : str) : bool :=
  match s with
  | [] => false
  | [c] => cp_isupper U c
  | _ =>
      negb (existsb (fun c => cp_islower U c || cp_istitle U c) s)
      && existsb (cp_isupper U) s
  end.

(** The test of line 76 on a stripped line. *)
Definition is_heading (U : Unicode) (line : str) : bool :=
  isupper U line && (length (split_ws line) <? 6)%nat.

(** The line feed character, ["\n"]. *)
Definition LF : N := 10%N.

(** [f"\n\n### {line} ###\n"]. *)
Definition heading (line : str) : str :=
  [LF; LF] ++ lit "### " ++ line ++ lit " ###" ++ [LF].

(** One turn of the loop of lines 74-79: what is appended to
    [formatted_lines] for one line. *)
Definition format_line (U : Unicode) (line : str) : list str :=
  let line := strip line in
  if is_heading U line then [heading line]
  else match line with
       | [] => []
       | _ :: _ => [line]
       end.

Definition format_resume_text (U : Unicode) (resume_text : str) : str :=
  let lines := split_on LF resume_text in
  let formatted_lines :=
    fold_left (fun formatted_lines line => formatted_lines ++ format_line U line)
              lines [] in
  join [LF] formatted_lines.

(** The case properties restricted to ASCII letters, to run the formatter
    on concrete texts. *)
Definition ascii_case : Unicode :=
  {| cp_isupper := fun c => ((65 <=? c) && (c <=? 90))%N;
     cp_islower := fun c => ((97 <=? c) && (c <=? 122))%N;
     cp_istitle := fun _ => false |}.

(** ** Skills extraction *)

(** The tokenizer and the language model of the [transformers] library:
    the call of [tokenizer] on the prompt, [model.generate] on its result
    with [max_new_tokens=n], which returns a batch of token sequences, and
    [tokenizer.decode] with [skip_special_tokens=True]. *)
Record Transformers : Type :=
  { tokens : Type;
    tokenizer : str -> tokens;
    generate : tokens -> nat -> list tokens;
    decode : tokens -> str }.

(** The f-string of lines 93-99; each line of the template starts with
    four spaces. *)
Definition skills_prompt (resume_text : str) : str :=
  [LF]
  ++ lit "    You are a highly intelligent resume parser. Your task is to extract the skills section from the following resume text. "
  ++ [LF]
  ++ lit "    Return only the text below the 'Skills' section. If the 'Skills' section is not found, return an empty string."
  ++ [LF] ++ [LF]
  ++ lit "    Resume Text:" ++ [LF]
  ++ lit "    " ++ resume_text ++ [LF]
  ++ lit "    ".

Definition extract_skills_using_ai (M : Transformers) (resume_text : str)
  : result str :=
  let prompt := skills_prompt resume_text in
  let inputs := tokenizer M prompt in
  let outputs := generate M inputs 600 in
  first_output <- getitem outputs 0 ;;
  let response := decode M first_output in
  Return (strip response).

(** A stand-in for the language model that echoes its prompt, as a causal
    model does before it continues the text. *)
Definition echo_model : Transformers :=
  {| tokens := str;
     tokenizer := fun s => s;
     generate := fun inputs _ => [inputs];
     decode := fun s => s |}.

(** ** Feedback order *)

(** The three messages from worst to best. *)
Definition feedback_rank (feedback : str) : nat :=
  if str_eqb feedback feedback_excellent then 2
  else if str_eqb feedback feedback_good then 1
  else 0.

(** The feedback in terms of the two counts, in integer arithmetic. *)
Definition feedback_for (s n : nat) : str :=
  if (4 * n <=? 5 * s)%nat then feedback_excellent
  else if (n <=? 2 * s)%nat then feedback_good
  else feedback_needs_improvement.

(** Whitespace only. *)
Definition blank (s : str) : bool := forallb isspace s.


(** ** Reading the result of the matcher *)

(** The similarity of the resume, row [r0] of the TF-IDF matrix, and job
    [i], row [i] of the remaining rows. *)
Definition job_similarity (L : Libs) (r0 : vec L) (rest : list (vec L))
    (i : nat) : Q :=
  cosine L r0 (nth i rest r0).

(** The entry the matcher builds for job [i] of the corpus. *)
Definition job_entry (L : Libs) (corpus : list JobRecord) (r0 : vec L)
    (rest : list (vec L)) (i : nat) : matched_job :=
  Match (nth i (map title corpus) []) (job_similarity L r0 rest i).

(** A corpus of seven jobs, more than the matcher returns. *)
Definition larger_corpus : list JobRecord :=
  [ {| title := lit "Data Engineer";
       description := lit "pipelines and warehouses" |};
    {| title := lit "Game Designer"; description := lit "levels" |};
    {| title := lit "IT Trainer"; description := lit "teaching staff" |};
    {| title := lit "Scrum Master"; description := lit "sprints, retros" |};
    {| title := lit "Web Developer"; description := lit "pages" |};
    {| title := lit "IT Auditor";
       description := lit "controls, evidence and audit reports" |};
    {| title := lit "Release Manager"; description := lit "ship it" |} ].

(** A store whose metadata do not use the key ["jobTitle"]. *)
Definition store_without_titles : get_result :=
  {| documents := [];
     metadatas := [[(lit "title", lit "Game Designer")]] |}.

(** The truth value of a string: it is not empty. *)
Definition nonempty (s : str) : bool :=
  match s with
  | [] => false
  | _ :: _ => true
  end.

(** The lines of a text that the formatter keeps when none of them is a
    heading: stripped, the empty ones left out. *)
Definition kept_lines (resume_text : str) : list str :=
  filter nonempty (map strip (split_on LF resume_text)).

(** What the formatter asks of the case properties: the characters of its
    own markers, ['#'] and the space, have no case, and an upper-case
    character is neither lower-case nor title-case. The Unicode database
    meets this. *)
Record CaseSpec (U : Unicode) : Prop :=
  { hash_uncased : cp_islower U 35 = false /\ cp_istitle U 35 = false;
    space_uncased : cp_islower U 32 = false /\ cp_istitle U 32 = false;
    upper_only :
      forall c, cp_isupper U c = true ->
                cp_islower U c = false /\ cp_istitle U c = false }.

(** A heading line between its markers, ["### " + line + " ###"]. *)
Definition marked (line : str) : str := lit "### " ++ line ++ lit " ###".

(** The first sentence of the prompt, and what follows it up to the end of
    the prompt. *)
Definition prompt_opening : str :=
  lit "You are a highly intelligent resume parser.".

Definition prompt_rest (resume_text : str) : str :=
  lit " Your task is to extract the skills section from the following resume text. "
  ++ [LF]
  ++ lit "    Return only the text below the 'Skills' section. If the 'Skills' section is not found, return an empty string."
  ++ [LF] ++ [LF]
  ++ lit "    Resume Text:" ++ [LF]
  ++ lit "    " ++ resume_text ++ [LF]
  ++ lit "    ".

(** * Properties *)

(** ** Strings *)

Lemma str_eqb_spec (a b : str) : str_eqb a b = true <-> a = b.
Proof.
  revert b; induction a as [|x a IH]; intros [|y b]; simpl; split;
    try congruence; try reflexivity.
  - rewrite andb_true_iff, N.eqb_eq, IH. intros [-> ->]; reflexivity.
  - intros H; injection H as -> ->.
    rewrite andb_true_iff, N.eqb_eq, IH; split; reflexivity.
Qed.

Lemma lstrip_head (s : str) :
  lstrip s = [] \/ exists c t, lstrip s = c :: t /\ isspace c = false.
Proof.
  induction s as [|c s IH]; simpl.
  - left; reflexivity.
  - destruct (isspace c) eqn:E; [exact IH|].
    right; exists c, s; split; [reflexivity | exact E].
Qed.

Lemma lstrip_nonspace (c : N) (t : str) :
  isspace c = false -> lstrip (c :: t) = c :: t.
Proof. intros E; simpl; rewrite E; reflexivity. Qed.

Lemma lstrip_idem (s : str) : lstrip (lstrip s) = lstrip s.
Proof.
  destruct (lstrip_head s) as [E | (c & t & E & Hc)]; rewrite E.
  - reflexivity.
  - apply lstrip_nonspace, Hc.
Qed.

(** Stripping on the left keeps a final character that is not a space. *)
Lemma lstrip_snoc (u : str) (c : N) :
  isspace c = false -> exists v, lstrip (u ++ [c]) = v ++ [c].
Proof.
  intros Hc; induction u as [|d u IH]; simpl.
  - rewrite Hc; exists []; reflexivity.
  - destruct (isspace d).
    + exact IH.
    + exists (d :: u); reflexivity.
Qed.

Lemma rstrip_idem (s : str) : rstrip (rstrip s) = rstrip s.
Proof.
  unfold rstrip; rewrite rev_involutive, lstrip_idem; reflexivity.
Qed.

Lemma lstrip_rstrip_lstrip (s : str) :
  lstrip (rstrip (lstrip s)) = rstrip (lstrip s).
Proof.
  destruct (lstrip_head s) as [E | (c & t & E & Hc)]; rewrite E.
  - reflexivity.
  - unfold rstrip; simpl rev.
    destruct (lstrip_snoc (rev t) c Hc) as [v Hv]; rewrite Hv.
    rewrite rev_app_distr; simpl.
    apply lstrip_nonspace, Hc.
Qed.

Lemma strip_idem (s : str) : strip (strip s) = strip s.
Proof.
  unfold strip; rewrite lstrip_rstrip_lstrip; apply rstrip_idem.
Qed.

(** ** Feedback scorer *)

Lemma fold_count_answer (answers : list str) (acc : nat) :
  fold_left count_answer answers acc
  = (acc + substantive_count answers)%nat.
Proof.
  unfold substantive_count.
  revert acc; induction answers as [|a l IH]; intros acc; simpl.
  - lia.
  - rewrite IH; unfold count_answer, substantive.
    destruct (20 <? len (strip a))%nat; simpl; lia.
Qed.

Lemma score_is_count (answers : list str) :
  fst (provide_feedback answers) = substantive_count answers.
Proof. simpl; apply fold_count_answer. Qed.

Lemma substantive_count_le (answers : list str) :
  (substantive_count answers <= length answers)%nat.
Proof. apply filter_length_le. Qed.

Lemma of_int_pos (n : nat) : (0 < n)%nat -> (0 < of_int n)%Q.
Proof.
  intros H; unfold of_int, Qlt; simpl; lia.
Qed.

(** For a non-empty list the product test of the source is the ratio test
    of the spec. *)
Lemma score_ge_ratio (score n : nat) (c : Q) :
  (0 < n)%nat -> (score_ge score n c = true <-> (c <= ratio score n)%Q).
Proof.
  intros Hn; pose proof (of_int_pos n Hn) as Hpos.
  unfold score_ge, ratio; rewrite Qle_bool_iff; split; intros H.
  - apply Qle_shift_div_l; [exact Hpos|].
    rewrite Qmult_comm; exact H.
  - destruct (Qlt_le_dec (of_int score) (of_int n * c)) as [Hlt | Hle];
      [|exact Hle].
    exfalso; apply (Qle_not_lt _ _ H).
    apply Qlt_shift_div_r; [exact Hpos|].
    rewrite Qmult_comm; exact Hlt.
Qed.

Lemma score_ge_ratio_false (score n : nat) (c : Q) :
  (0 < n)%nat -> (score_ge score n c = false <-> (ratio score n < c)%Q).
Proof.
  intros Hn; pose proof (score_ge_ratio score n c Hn) as [H1 H2].
  destruct (score_ge score n c) eqn:E; split; intros H; try congruence.
  - exfalso; apply (Qle_not_lt _ _ (H1 eq_refl)), H.
  - destruct (Qlt_le_dec (ratio score n) c) as [Hlt | Hle]; [exact Hlt|].
    specialize (H2 Hle); discriminate.
Qed.


(** ** The thresholds in binary64 *)

Lemma round_div_cases (p K : Z) :
  (0 < K)%Z ->
  let q := (p / K)%Z in
  let r := (p mod K)%Z in
  (p = K * q + r /\ 0 <= r < K /\
   ((2 * r < K /\ round_div p K = q) \/
    (K <= 2 * r /\ round_div p K = q + 1) \/
    (2 * r = K /\ round_div p K = q)))%Z.
Proof.
  intros HK q r.
  split; [apply Z.div_mod; lia|].
  split; [apply Z.mod_pos_bound; lia|].
  unfold round_div; fold q; fold r.
  destruct (Z.ltb_spec (2 * r) K); [left; split; [lia | reflexivity]|].
  destruct (Z.ltb_spec K (2 * r));
    [right; left; split; [lia | reflexivity]|].
  destruct (Z.even q); [right; right | right; left]; split; try lia;
    reflexivity.
Qed.

(** Below [2^50] answers the binary64 test against 0.8 is the exact one. *)
Lemma binary64_ge_08 (s n : Z) :
  (0 <= s <= n)%Z -> (n < 2 ^ 50)%Z ->
  binary64_ge s n m08 = (4 * n <=? 5 * s)%Z.
Proof.
  intros Hs Hn; unfold binary64_ge.
  destruct (Z.eq_dec n 0) as [-> | Hn0].
  { assert (s = 0%Z) by lia; subst; reflexivity. }
  set (p := (n * m08)%Z).
  assert (Hp : (2 ^ 52 <= p < 2 ^ 103)%Z).
  { unfold p, m08.
    change (2 ^ 52)%Z with 4503599627370496%Z.
    change (2 ^ 103)%Z with 10141204801825835211973625643008%Z.
    change (2 ^ 50)%Z with 1125899906842624%Z in Hn.
    lia. }
  assert (Hl : (52 <= Z.log2 p < 103)%Z).
  { split; [apply Z.log2_le_pow2; lia | apply Z.log2_lt_pow2; lia]. }
  set (k := (Z.log2 p - 52)%Z).
  rewrite Z.max_r by lia.
  destruct (Z.log2_spec p) as [Hlo Hhi]; [lia|].
  replace (Z.log2 p) with (52 + k)%Z in Hlo by lia.
  replace (Z.succ (Z.log2 p)) with (53 + k)%Z in Hhi by lia.
  rewrite Z.pow_add_r in Hlo, Hhi by lia.
  assert (HT : (2 ^ 53 = 2 ^ k * 2 ^ (53 - k))%Z).
  { rewrite <- Z.pow_add_r by lia; f_equal; lia. }
  assert (HTpos : (8 <= 2 ^ (53 - k))%Z).
  { change 8%Z with (2 ^ 3)%Z; apply Z.pow_le_mono_r; lia. }
  assert (HKpos : (0 < 2 ^ k)%Z) by (apply Z.pow_pos_nonneg; lia).
  set (K := (2 ^ k)%Z) in *.
  set (T := (2 ^ (53 - k))%Z) in *.
  destruct (round_div_cases p K HKpos) as (Hdiv & Hr & Hcase).
  set (q := (p / K)%Z) in *.
  set (r := (p mod K)%Z) in *.
  assert (H5 : (5 * p = 4 * n * 2 ^ 53 + 2 * n)%Z).
  { unfold p, m08; change (2 ^ 53)%Z with 9007199254740992%Z; lia. }
  change (2 ^ 52)%Z with 4503599627370496%Z in *.
  change (2 ^ 53)%Z with 9007199254740992%Z in *.
  change (2 ^ 50)%Z with 1125899906842624%Z in *.
  destruct (Z.leb_spec (4 * n) (5 * s)) as [Hge | Hlt].
  - apply Z.leb_le.
    destruct (Z.eq_dec (4 * n) (5 * s)) as [E | NE].
    + (* the product exceeds [s] by [s * 2^-54], less than half a unit *)
      assert (Hd : (10 * (p - s * 9007199254740992) = 5 * s)%Z) by lia.
      assert (HsK : (s < K)%Z) by nia.
      assert (Hq : q = (s * T)%Z) by nia.
      destruct Hcase as [[? ->] | [[? ->] | [? ->]]]; nia.
    + (* the product is at most [s], and [s] is representable *)
      assert (Hps : (p <= s * 9007199254740992)%Z) by lia.
      destruct Hcase as [[? ->] | [[? ->] | [? ->]]]; nia.
  - (* the product exceeds [s] by more than 0.2, more than half a unit *)
    apply Z.leb_gt.
    assert (Hps : (5 * (p - s * 9007199254740992)
                   >= 9007199254740992 + 2 * n)%Z) by lia.
    assert (HK5 : (5 * K < 2 * 9007199254740992)%Z) by nia.
    destruct Hcase as [[? ->] | [[? ->] | [? ->]]]; nia.
Qed.

(** The product by 0.5 is exact. *)
Lemma binary64_ge_05 (s n : Z) :
  (0 <= n < 2 ^ 50)%Z -> binary64_ge s n m05 = (n <=? 2 * s)%Z.
Proof.
  intros Hn; unfold binary64_ge.
  destruct (Z.eq_dec n 0) as [-> | Hn0].
  { simpl; destruct s; reflexivity. }
  assert (Hlog : Z.log2 (n * m05) = (52 + Z.log2 n)%Z).
  { unfold m05; apply Z.log2_mul_pow2; lia. }
  pose proof (Z.log2_nonneg n) as Hk0.
  assert (Hk : (Z.log2 n < 50)%Z) by (apply Z.log2_lt_pow2; lia).
  rewrite Hlog, Z.max_r by lia.
  replace (52 + Z.log2 n - 52)%Z with (Z.log2 n) by lia.
  set (k := Z.log2 n) in *.
  assert (HKpos : (0 < 2 ^ k)%Z) by (apply Z.pow_pos_nonneg; lia).
  assert (Hp : (n * m05 = n * 2 ^ (52 - k) * 2 ^ k)%Z).
  { unfold m05; rewrite <- Z.mul_assoc, <- Z.pow_add_r by lia.
    do 2 f_equal; lia. }
  assert (Hround : (round_div (n * m05) (2 ^ k) * 2 ^ k = n * m05)%Z).
  { rewrite Hp; unfold round_div.
    rewrite Z.mod_mul, Z.div_mul by lia.
    replace (2 * 0 <? 2 ^ k)%Z with true by (symmetry; apply Z.ltb_lt; lia).
    reflexivity. }
  rewrite Hround; unfold m05.
  change (2 ^ 52)%Z with 4503599627370496%Z.
  change (2 ^ 53)%Z with 9007199254740992%Z.
  destruct (Z.leb_spec (n * 4503599627370496) (s * 9007199254740992));
    destruct (Z.leb_spec n (2 * s)); try reflexivity; lia.
Qed.

Lemma score_ge_08 (score n : nat) :
  score_ge score n 0.8 = (4 * Z.of_nat n <=? 5 * Z.of_nat score)%Z.
Proof.
  apply eq_true_iff_eq; unfold score_ge.
  rewrite Qle_bool_iff, Z.leb_le.
  unfold Qle, of_int; cbn [Qnum Qden Qmult inject_Z]; lia.
Qed.

Lemma score_ge_05 (score n : nat) :
  score_ge score n 0.5 = (Z.of_nat n <=? 2 * Z.of_nat score)%Z.
Proof.
  apply eq_true_iff_eq; unfold score_ge.
  rewrite Qle_bool_iff, Z.leb_le.
  unfold Qle, of_int; cbn [Qnum Qden Qmult inject_Z]; lia.
Qed.

(** For fewer than [2^50] answers, taking the products in binary64 or in
    exact arithmetic gives the same two tests. *)
Lemma binary64_ge_score_ge (score n : nat) :
  (score <= n)%nat -> (Z.of_nat n < 2 ^ 50)%Z ->
  binary64_ge (Z.of_nat score) (Z.of_nat n) m08 = score_ge score n 0.8 /\
  binary64_ge (Z.of_nat score) (Z.of_nat n) m05 = score_ge score n 0.5.
Proof.
  intros Hs Hn; split.
  - rewrite score_ge_08; apply binary64_ge_08; lia.
  - rewrite score_ge_05; apply binary64_ge_05; lia.
Qed.

(** So [provide_feedback] computes what the binary64 arithmetic of the
    source computes, for every list of fewer than [2^50] answers. *)
Lemma provide_feedback_binary64_eq (answers : list str) :
  (Z.of_nat (length answers) < 2 ^ 50)%Z ->
  provide_feedback_binary64 answers = provide_feedback answers.
Proof.
  intros Hn.
  unfold provide_feedback_binary64, provide_feedback; cbv zeta.
  assert (Hs : (fold_left count_answer answers 0 <= length answers)%nat).
  { rewrite fold_count_answer; apply substantive_count_le. }
  destruct (binary64_ge_score_ge _ _ Hs Hn) as [-> ->]; reflexivity.
Qed.

(** The integer model of the rounding against the primitive floats: the
    significands denote the two constants, and the two tests agree on
    every pair with [score <= n <= 200], and around both thresholds for
    lengths near [2^20], [2^40] and just below [2^50]. *)
Lemma binary64_ge_float_ge :
  PrimFloat.eqb (PrimFloat.mul (float_of_Z m08) 0x1p-53%float) c08 = true /\
  PrimFloat.eqb (PrimFloat.mul (float_of_Z m05) 0x1p-53%float) c05 = true /\
  forallb models_agree (score_pairs 0 201) = true /\
  forallb models_agree (threshold_pairs (2 ^ 20) 200) = true /\
  forallb models_agree (threshold_pairs (2 ^ 40) 200) = true /\
  forallb models_agree (threshold_pairs (2 ^ 50 - 200) 200) = true.
Proof.
  split; [vm_compute; reflexivity|].
  split; [vm_compute; reflexivity|].
  split; [vm_compute; reflexivity|].
  split; [vm_compute; reflexivity|].
  split; vm_compute; reflexivity.
Qed.

(** The bound on the length is needed. At 5629499534213124 answers, with
    4503599627370499 of them substantive, the ratio is below 0.8, yet the
    binary64 product rounds down to the score and the test succeeds. *)
Example binary64_ge_beyond_bound :
  let score := 4503599627370499%Z in
  let n := 5629499534213124%Z in
  (4 * n <=? 5 * score)%Z = false /\
  binary64_ge score n m08 = true /\
  float_ge score n c08 = true.
Proof.
  split; [vm_compute; reflexivity|].
  split; vm_compute; reflexivity.
Qed.

(** ** The scorer contract *)

(** C1, as the source behaves: for the empty list the score is 0 and the
    first test, [0 >= 0 * 0.8], succeeds, so the feedback is the
    "Excellent" message, in exact and in binary64 arithmetic alike. No
    division takes place and nothing is raised. *)
Theorem provide_feedback_empty :
  provide_feedback [] = (0%nat, feedback_excellent) /\
  provide_feedback_binary64 [] = (0%nat, feedback_excellent).
Proof. split; reflexivity. Qed.

(** C1, as stated, fails: the empty list is not graded "needs
    improvement". *)
Lemma provide_feedback_empty_not_needs_improvement :
  provide_feedback [] <> (0%nat, feedback_needs_improvement).
Proof. vm_compute; discriminate. Qed.

(** C6: for a non-empty list of answers the score is the number of answers
    whose stripped length is greater than 20, and the feedback follows the
    ratio [score / len(answers)]: "Excellent" from 0.8 up, "Good" from 0.5
    up to but excluding 0.8, "Needs improvement" below 0.5. Two answers of
    25 characters and one short answer give 2 and "Good"; five answers of
    25 characters give "Excellent". *)
Theorem provide_feedback_tiers :
  (forall answers : list str, answers <> [] ->
     let r := ratio (fst (provide_feedback answers)) (length answers) in
     fst (provide_feedback answers) = substantive_count answers /\
     ((0.8 <= r)%Q -> snd (provide_feedback answers) = feedback_excellent) /\
     ((0.5 <= r)%Q /\ (r < 0.8)%Q ->
        snd (provide_feedback answers) = feedback_good) /\
     ((r < 0.5)%Q ->
        snd (provide_feedback answers) = feedback_needs_improvement)) /\
  provide_feedback [a25; a25; lit "short"] = (2%nat, feedback_good) /\
  provide_feedback (repeat a25 5) = (5%nat, feedback_excellent).
Proof.
  split; [|split; reflexivity].
  intros answers Hne r.
  assert (Hn : (0 < length answers)%nat)
    by (destruct answers; [congruence | simpl; lia]).
  split; [apply score_is_count|].
  subst r; unfold provide_feedback; cbn [fst snd].
  set (score := fold_left count_answer answers 0%nat).
  repeat split.
  - intros H; apply (score_ge_ratio score _ _ Hn) in H; rewrite H.
    reflexivity.
  - intros [H5 H8].
    apply (score_ge_ratio score _ _ Hn) in H5.
    apply (score_ge_ratio_false score _ _ Hn) in H8.
    rewrite H8, H5; reflexivity.
  - intros H5.
    assert (H8 : (ratio score (length answers) < 0.8)%Q)
      by (eapply Qlt_trans; [exact H5 | reflexivity]).
    apply (score_ge_ratio_false score _ _ Hn) in H5.
    apply (score_ge_ratio_false score _ _ Hn) in H8.
    rewrite H8, H5; reflexivity.
Qed.

Lemma provide_feedback_tiers_witness :
  let answers := [a25; a25; lit "short"] in
  answers <> [] /\
  fst (provide_feedback answers) = substantive_count answers /\
  snd (provide_feedback answers) = feedback_good.
Proof.
  intros answers.
  assert (Hne : answers <> []) by discriminate.
  destruct (proj1 provide_feedback_tiers answers Hne) as (Hs & _ & Hg & _).
  split; [exact Hne|]. split; [exact Hs|].
  apply Hg; split; vm_compute; congruence.
Defined.

(** C10: the score is an integer between 0 and [len(answers)], and the
    feedback is one of the three fixed messages. *)
Theorem provide_feedback_range (answers : list str) :
  (0 <= fst (provide_feedback answers) <= length answers)%nat /\
  (snd (provide_feedback answers) = feedback_excellent \/
   snd (provide_feedback answers) = feedback_good \/
   snd (provide_feedback answers) = feedback_needs_improvement).
Proof.
  split.
  - rewrite score_is_count.
    split; [lia | apply substantive_count_le].
  - unfold provide_feedback; cbn [snd].
    destruct (score_ge _ _ 0.8); [left; reflexivity|].
    destruct (score_ge _ _ 0.5); [right; left | right; right]; reflexivity.
Qed.

(** ** Question bank *)

Lemma existsb_str_eqb_In (k : str) (l : list str) :
  existsb (str_eqb k) l = true <-> In k l.
Proof.
  rewrite existsb_exists; split.
  - intros (x & Hx & E); apply str_eqb_spec in E; subst; exact Hx.
  - intros H; exists k; split; [exact H | apply str_eqb_spec; reflexivity].
Qed.

Lemma dict_get_Some_In {V : Type} (d : list (str * V)) (k : str) (v : V) :
  dict_get d k = Some v -> In (k, v) d.
Proof.
  induction d as [|[k' v'] d IH]; simpl; [discriminate|].
  destruct (dict_get d k) as [w|].
  - intros H; injection H as ->; right; apply IH; reflexivity.
  - destruct (str_eqb k' k) eqn:E; [|discriminate].
    intros H; injection H as ->.
    apply str_eqb_spec in E; subst; left; reflexivity.
Qed.

Lemma dict_get_None {V : Type} (d : list (str * V)) (k : str) :
  dict_get d k = None <-> ~ In k (dict_keys d).
Proof.
  induction d as [|[k' v'] d IH]; simpl.
  - split; [intros _ [] | reflexivity].
  - destruct (dict_get d k) as [w|].
    + split; [discriminate|].
      intros H; exfalso; apply H; right.
      destruct (in_dec (list_eq_dec N.eq_dec) k (dict_keys d)) as [Hin|Hn];
        [exact Hin|].
      apply IH in Hn; discriminate.
    + destruct (str_eqb k' k) eqn:E.
      * apply str_eqb_spec in E; split; [discriminate|].
        intros H; exfalso; apply H; left; exact E.
      * split; [|reflexivity].
        intros _ [H | H].
        -- apply str_eqb_spec in H; congruence.
        -- apply (proj1 IH eq_refl), H.
Qed.

Lemma dict_get_In_keys {V : Type} (d : list (str * V)) (k : str) :
  In k (dict_keys d) -> exists v, dict_get d k = Some v.
Proof.
  intros H; destruct (dict_get d k) as [v|] eqn:E.
  - exists v; reflexivity.
  - apply dict_get_None in E; contradiction.
Qed.

(** Every entry of the dictionary holds six questions. *)
Lemma questions_all_six (k : str) (qs : list str) :
  In (k, qs) questions -> length qs = 6%nat.
Proof.
  assert (H : forallb (fun kv => (length (snd kv) =? 6)%nat) questions = true)
    by (vm_compute; reflexivity).
  rewrite forallb_forall in H.
  intros Hin; apply H in Hin; apply Nat.eqb_eq in Hin; exact Hin.
Qed.

Lemma no_dup_keys_NoDup (l : list str) : no_dup_keys l = true -> NoDup l.
Proof.
  induction l as [|x l IH]; simpl; [constructor|].
  rewrite andb_true_iff, negb_true_iff; intros [Hx Hl].
  constructor; [|apply IH, Hl].
  intros Hin; apply existsb_str_eqb_In in Hin; congruence.
Qed.

(** The dictionary has 76 keys, all distinct. *)
Lemma questions_keys_NoDup :
  length questions = 76%nat /\ NoDup (dict_keys questions).
Proof.
  split; [reflexivity|].
  apply no_dup_keys_NoDup; vm_compute; reflexivity.
Qed.

Lemma generate_questions_known (s : str) :
  In (strip s) (dict_keys questions) ->
  In (strip s, generate_questions_for_job s) questions.
Proof.
  intros H; apply dict_get_In_keys in H as [qs E].
  unfold generate_questions_for_job; cbv zeta; rewrite E.
  apply dict_get_Some_In, E.
Qed.

Lemma generate_questions_unknown (s : str) :
  ~ In (strip s) (dict_keys questions) ->
  generate_questions_for_job s = default_questions (strip s).
Proof.
  intros H; apply dict_get_None in H.
  unfold generate_questions_for_job; cbv zeta; rewrite H; reflexivity.
Qed.




(** C8: stripping the input first does not change the result; the padded
    title ["  Software Engineer  "] gives the list of ["Software
    Engineer"]. A key is matched only by the very same sequence of
    characters: a title found among the keys yields the entry stored under
    exactly that key, and the lower-case ["software engineer"] is not a key
    and gets the generic questions. *)
Theorem generate_questions_strip :
  (forall s : str,
     generate_questions_for_job s = generate_questions_for_job (strip s)) /\
  generate_questions_for_job (lit "  Software Engineer  ")
  = generate_questions_for_job (lit "Software Engineer") /\
  generate_questions_for_job (lit "Software Engineer")
  = generate_software_engineer_questions /\
  (forall s : str,
     generate_questions_for_job s <> default_questions (strip s) ->
     In (strip s, generate_questions_for_job s) questions) /\
  generate_questions_for_job (lit "software engineer")
  = default_questions (lit "software engineer") /\
  generate_questions_for_job (lit "SOFTWARE ENGINEER")
  = default_questions (lit "SOFTWARE ENGINEER").
Proof.
  split; [|split; [|split; [|split; [|split]]]].
  - intros s; unfold generate_questions_for_job; cbv zeta.
    rewrite strip_idem; reflexivity.
  - vm_compute; reflexivity.
  - vm_compute; reflexivity.
  - intros s H.
    destruct (in_dec (list_eq_dec N.eq_dec) (strip s) (dict_keys questions))
      as [Hin | Hn].
    + apply generate_questions_known, Hin.
    + exfalso; apply H, generate_questions_unknown, Hn.
  - vm_compute; reflexivity.
  - vm_compute; reflexivity.
Qed.

Lemma generate_questions_strip_witness :
  generate_questions_for_job (lit " IT Auditor")
  <> default_questions (strip (lit " IT Auditor")) /\
  In (strip (lit " IT Auditor"),
      generate_questions_for_job (lit " IT Auditor")) questions.
Proof.
  assert (H : generate_questions_for_job (lit " IT Auditor")
              <> default_questions (strip (lit " IT Auditor")))
    by (vm_compute; discriminate).
  split; [exact H|].
  apply (proj1 (proj2 (proj2 (proj2 generate_questions_strip))) _ H).
Defined.

(** C9: ["UX/UI Designer"] and ["Chief Technology Officer (CTO)"] are in
    [job_titles] but are not keys of the dictionary, which has ["UI/UX
    Designer"] and ["Chief Technology Officer"] instead; for both inputs
    the result is the 4-item generic list, not a 6-item list. *)
Theorem job_titles_not_all_known :
  In (lit "UX/UI Designer") job_titles /\
  In (lit "Chief Technology Officer (CTO)") job_titles /\
  ~ In (lit "UX/UI Designer") (dict_keys questions) /\
  ~ In (lit "Chief Technology Officer (CTO)") (dict_keys questions) /\
  In (lit "UI/UX Designer") (dict_keys questions) /\
  In (lit "Chief Technology Officer") (dict_keys questions) /\
  generate_questions_for_job (lit "UX/UI Designer")
  = default_questions (lit "UX/UI Designer") /\
  generate_questions_for_job (lit "Chief Technology Officer (CTO)")
  = default_questions (lit "Chief Technology Officer (CTO)") /\
  length (generate_questions_for_job (lit "UX/UI Designer")) = 4%nat /\
  length (generate_questions_for_job (lit "Chief Technology Officer (CTO)"))
  = 4%nat.
Proof.
  repeat split;
    try (apply existsb_str_eqb_In; vm_compute; reflexivity);
    try (intros H; apply existsb_str_eqb_In in H; vm_compute in H;
         discriminate).
Qed.

(** The two titles of C9 are the only entries of [job_titles] that are not
    keys. *)
Lemma job_titles_unknown_exactly :
  filter (fun t => negb (existsb (str_eqb t) (dict_keys questions)))
         job_titles
  = [lit "UX/UI Designer"; lit "Chief Technology Officer (CTO)"].
Proof. vm_compute; reflexivity. Qed.

(** ** Lists, slices and order *)

Lemma last_n_length {A : Type} (n : nat) (l : list A) :
  length (last_n n l) = Nat.min n (length l).
Proof. unfold last_n; rewrite length_skipn; lia. Qed.

Lemma last_n_incl {A : Type} (n : nat) (l : list A) (x : A) :
  In x (last_n n l) -> In x l.
Proof.
  unfold last_n; intros H.
  rewrite <- (firstn_skipn (length l - n) l).
  apply in_or_app; right; exact H.
Qed.

Lemma StronglySorted_skipn {A : Type} (R : A -> A -> Prop) (n : nat)
    (l : list A) :
  StronglySorted R l -> StronglySorted R (skipn n l).
Proof.
  revert l; induction n as [|n IH]; intros l H; [exact H|].
  destruct l as [|x l]; [constructor|].
  simpl; apply IH; inversion H; assumption.
Qed.

Lemma StronglySorted_snoc {A : Type} (R : A -> A -> Prop) (l : list A)
    (x : A) :
  StronglySorted R l -> Forall (fun y => R y x) l ->
  StronglySorted R (l ++ [x]).
Proof.
  induction l as [|y l IH]; intros Hs Hx; simpl.
  - repeat constructor.
  - inversion Hs as [|? ? Hl Hy]; subst.
    inversion Hx as [|? ? Hyx Hlx]; subst.
    constructor; [apply IH; assumption|].
    apply Forall_app; split; [assumption | repeat constructor; assumption].
Qed.

Lemma StronglySorted_rev {A : Type} (R : A -> A -> Prop) (l : list A) :
  StronglySorted R l -> StronglySorted (fun a b => R b a) (rev l).
Proof.
  induction 1 as [|x l Hl IH Hx]; simpl; [constructor|].
  apply StronglySorted_snoc; [exact IH|].
  apply Forall_rev; exact Hx.
Qed.

Lemma Qle_transitive : Relations_1.Transitive Qle.
Proof. intros x y z; apply Qle_trans. Qed.

(** ** Exceptions and comprehensions *)

Lemma mapM_Return {A B : Type} (f : A -> result B) (g : A -> B)
    (l : list A) :
  Forall (fun x => f x = Return (g x)) l -> mapM f l = Return (map g l).
Proof.
  induction 1 as [|x l Hx _ IH]; simpl; [reflexivity|].
  rewrite Hx, IH; reflexivity.
Qed.

Lemma getitem_nth {A : Type} (l : list A) (i : nat) (d : A) :
  (i < length l)%nat -> getitem l i = Return (nth i l d).
Proof.
  intros H; unfold getitem; rewrite (nth_error_nth' l d H); reflexivity.
Qed.

(** ** Resume matcher *)

Lemma collection_titles (corpus : list JobRecord) :
  mapM (fun metadata => dict_getitem metadata (lit "jobTitle"))
       (metadatas (collection_get corpus))
  = Return (map title corpus).
Proof.
  unfold collection_get; cbn [metadatas].
  rewrite <- (map_map (fun job => [(lit "jobTitle", title job)])
                      (fun md => match md with
                                 | (_, t) :: _ => t
                                 | [] => []
                                 end)).
  apply mapM_Return, Forall_forall; intros md Hin.
  apply in_map_iff in Hin as (job & <- & _); reflexivity.
Qed.

Section MatcherProperties.

Variable L : Libs.
Hypothesis HL : LibsSpec L.

(** The indices [argsort] returns are those of the array. *)
Lemma argsort_range (a : list Q) (i : nat) :
  In i (argsort L a) -> (i < length a)%nat.
Proof.
  intros H.
  apply (Permutation_in _ (argsort_perm L HL a)) in H.
  apply in_seq in H; lia.
Qed.

Lemma argsort_length (a : list Q) : length (argsort L a) = length a.
Proof.
  rewrite (Permutation_length (argsort_perm L HL a)); apply length_seq.
Qed.

Lemma top_indices_length (sims : list Q) :
  length (top_indices L sims) = Nat.min 5 (length sims).
Proof.
  unfold top_indices.
  rewrite length_rev, last_n_length, argsort_length; reflexivity.
Qed.

Lemma top_indices_range (sims : list Q) (i : nat) :
  In i (top_indices L sims) -> (i < length sims)%nat.
Proof.
  unfold top_indices; intros H.
  apply in_rev, last_n_incl in H.
  apply argsort_range, H.
Qed.

Lemma top_indices_descending (sims : list Q) :
  descending (map (fun i => nth i sims 0%Q) (top_indices L sims)).
Proof.
  unfold descending, top_indices, last_n.
  rewrite map_rev, <- skipn_map.
  apply StronglySorted_rev, StronglySorted_skipn.
  apply Sorted_StronglySorted; [exact Qle_transitive|].
  apply (argsort_sorted L HL).
Qed.

(** When the vectorizer succeeds, [rank_jobs] returns one entry per kept
    index, made of the title and the similarity at that index. *)
Lemma rank_jobs_success (resume_text : str) (descs titles : list str)
    (m : list (vec L)) :
  length titles = length descs ->
  fit_transform L (resume_text :: descs) = Return m ->
  exists sims,
    length sims = length descs /\
    rank_jobs L resume_text descs titles
    = Return (map (fun i => Match (nth i titles []) (nth i sims 0%Q))
                  (top_indices L sims)).
Proof.
  intros Hlen Hfit.
  pose proof (fit_transform_rows L HL _ _ Hfit) as Hrows.
  destruct m as [|r0 rest]; [discriminate|].
  simpl in Hrows; injection Hrows as Hrows.
  exists (map (cosine L r0) rest); split; [rewrite length_map; exact Hrows|].
  unfold rank_jobs; rewrite Hfit; cbn [bind firstn skipn].
  unfold flatten, cosine_similarity; cbn [map concat].
  rewrite app_nil_r.
  set (sims := map (cosine L r0) rest).
  assert (Hs : length sims = length descs)
    by (unfold sims; rewrite length_map; exact Hrows).
  apply mapM_Return, Forall_forall; intros i Hi.
  apply top_indices_range in Hi.
  rewrite (getitem_nth titles i []) by lia.
  rewrite (getitem_nth sims i 0%Q) by lia.
  reflexivity.
Qed.

Lemma match_jobs_success (resume_text : str) (corpus : list JobRecord)
    (m : list (vec L)) :
  (1 <= length corpus)%nat ->
  fit_transform L (resume_text :: map description corpus) = Return m ->
  exists sims,
    length sims = length corpus /\
    match_jobs L resume_text (collection_get corpus)
    = Return (map (fun i => Match (nth i (map title corpus) [])
                                  (nth i sims 0%Q))
                  (top_indices L sims)).
Proof.
  intros Hn Hfit.
  destruct (rank_jobs_success resume_text (map description corpus)
              (map title corpus) m) as (sims & Hs & Hr);
    [rewrite !length_map; reflexivity | exact Hfit |].
  exists sims; split; [rewrite Hs, length_map; reflexivity|].
  unfold match_jobs; rewrite collection_titles; cbn [bind].
  cbn [collection_get documents].
  destruct corpus as [|job corpus]; [simpl in Hn; lia|].
  cbn [map] in *; rewrite Hr; reflexivity.
Qed.

End MatcherProperties.

(** ** The sample instance meets the interface *)

Lemma insert_by_score_perm (p : Q * nat) (l : list (Q * nat)) :
  Permutation (insert_by_score p l) (p :: l).
Proof.
  induction l as [|q l IH]; simpl; [reflexivity|].
  destruct (Qle_bool (fst p) (fst q)); [reflexivity|].
  rewrite IH; apply perm_swap.
Qed.

Lemma sort_by_score_perm (l : list (Q * nat)) :
  Permutation (sort_by_score l) l.
Proof.
  induction l as [|p l IH]; simpl; [reflexivity|].
  rewrite insert_by_score_perm, IH; reflexivity.
Qed.

Lemma insert_by_score_sorted (p : Q * nat) (l : list (Q * nat)) :
  Sorted score_le l -> Sorted score_le (insert_by_score p l).
Proof.
  induction 1 as [|q l Hl IH Hq]; simpl; [repeat constructor|].
  destruct (Qle_bool (fst p) (fst q)) eqn:E.
  - apply Qle_bool_iff in E.
    constructor; [constructor; assumption | constructor; exact E].
  - assert (Hqp : score_le q p).
    { unfold score_le.
      destruct (Qlt_le_dec (fst q) (fst p)) as [Hlt | Hle].
      - apply Qlt_le_weak, Hlt.
      - apply Qle_bool_iff in Hle; congruence. }
    constructor; [exact IH|].
    destruct Hq as [|r l Hr]; simpl.
    + constructor; exact Hqp.
    + destruct (Qle_bool (fst p) (fst r)); constructor; assumption.
Qed.

Lemma sort_by_score_sorted (l : list (Q * nat)) :
  Sorted score_le (sort_by_score l).
Proof.
  induction l as [|p l IH]; simpl; [constructor|].
  apply insert_by_score_sorted, IH.
Qed.

Lemma Sorted_map_fst (l : list (Q * nat)) :
  Sorted score_le l -> Sorted Qle (map fst l).
Proof.
  induction 1 as [|q l Hl IH Hq]; simpl; constructor; [exact IH|].
  destruct Hq; simpl; constructor; assumption.
Qed.

(** Every pair of [combine a (seq 0 (length a))] is a value of [a] with
    its index. *)
Lemma combine_seq_nth (a : list Q) (p : Q * nat) :
  In p (combine a (seq 0 (length a))) -> nth (snd p) a 0%Q = fst p.
Proof.
  intros H.
  apply (In_nth _ _ (0%Q, 0%nat)) in H as (k & Hk & E).
  rewrite length_combine, length_seq, Nat.min_id in Hk.
  rewrite combine_nth in E by (rewrite length_seq; reflexivity).
  rewrite seq_nth in E by exact Hk.
  subst p; reflexivity.
Qed.

Lemma map_snd_combine_seq (a : list Q) :
  map snd (combine a (seq 0 (length a))) = seq 0 (length a).
Proof.
  generalize 0%nat; induction a as [|x a IH]; intros s; simpl;
    [reflexivity | rewrite IH; reflexivity].
Qed.

Lemma insertion_argsort_perm (a : list Q) :
  Permutation (insertion_argsort a) (seq 0 (length a)).
Proof.
  unfold insertion_argsort.
  rewrite <- (map_snd_combine_seq a) at 2.
  apply Permutation_map, sort_by_score_perm.
Qed.

Lemma insertion_argsort_sorted (a : list Q) :
  Sorted Qle (map (fun i => nth i a 0%Q) (insertion_argsort a)).
Proof.
  unfold insertion_argsort; rewrite map_map.
  rewrite (map_ext_in _ fst).
  - apply Sorted_map_fst, sort_by_score_sorted.
  - intros p Hp; apply combine_seq_nth.
    apply (Permutation_in _ (sort_by_score_perm _)), Hp.
Qed.

Lemma sample_libs_spec : LibsSpec sample_libs.
Proof.
  constructor.
  - intros docs m; cbn [fit_transform sample_libs].
    destruct (forallb _ docs); [discriminate|].
    intros H; injection H as <-; apply length_map.
  - intros docs e; cbn [fit_transform sample_libs].
    destruct (forallb _ docs); [|discriminate].
    intros H; injection H as <-; eexists; reflexivity.
  - apply insertion_argsort_perm.
  - apply insertion_argsort_sorted.
Qed.

(** ** The matcher contract *)

(** C3: for the empty corpus the matcher returns exactly one entry, the
    message that no job descriptions are available, and raises nothing:
    whatever the resume text, and so for every PDF whose text was
    extracted. *)
Theorem matcher_empty_corpus (L : Libs) :
  (forall resume_text : str,
     match_jobs L resume_text (collection_get []) = Return [no_job_descriptions])
  /\
  (forall (pdf_file : list N) (resume_text : str),
     extract_text_from_pdf L pdf_file = Return resume_text ->
     process_resume_and_match_jobs L pdf_file (collection_get [])
     = Return [no_job_descriptions]).
Proof.
  split.
  - intros resume_text; reflexivity.
  - intros pdf_file resume_text Ht.
    unfold process_resume_and_match_jobs; rewrite Ht; reflexivity.
Qed.

Lemma matcher_empty_corpus_witness :
  extract_text_from_pdf sample_libs (lit "resume") = Return (lit "resume") /\
  process_resume_and_match_jobs sample_libs (lit "resume") (collection_get [])
  = Return [no_job_descriptions].
Proof.
  assert (Ht : extract_text_from_pdf sample_libs (lit "resume")
               = Return (lit "resume")) by reflexivity.
  split; [exact Ht|].
  apply (proj2 (matcher_empty_corpus sample_libs) _ _ Ht).
Defined.

(** C4: for every resume text and non-empty corpus, when the vectorizer
    fails the exception is a [ValueError], the handler catches it, and the
    matcher returns a list with one entry, the error message built from
    the exception text; nothing is raised to the caller. *)
Theorem matcher_vectorizer_failure (L : Libs) (HL : LibsSpec L)
    (pdf_file : list N) (resume_text : str) (corpus : list JobRecord)
    (e : exn) :
  corpus <> [] ->
  extract_text_from_pdf L pdf_file = Return resume_text ->
  fit_transform L (resume_text :: map description corpus) = Raise e ->
  exists msg : str,
    e = ValueError msg /\
    match_jobs L resume_text (collection_get corpus)
    = Return [matching_error msg] /\
    process_resume_and_match_jobs L pdf_file (collection_get corpus)
    = Return [matching_error msg].
Proof.
  intros Hne Htext Hfit.
  destruct (fit_transform_error L HL _ _ Hfit) as [msg ->].
  exists msg; split; [reflexivity|].
  assert (Hm : match_jobs L resume_text (collection_get corpus)
               = Return [matching_error msg]).
  { unfold match_jobs; rewrite collection_titles; cbn [bind].
    cbn [collection_get documents].
    destruct corpus as [|job corpus]; [congruence|].
    cbn [map] in *; unfold rank_jobs; rewrite Hfit; reflexivity. }
  split; [exact Hm|].
  unfold process_resume_and_match_jobs; rewrite Htext; exact Hm.
Qed.

Lemma matcher_vectorizer_failure_witness :
  let corpus := [ {| title := lit "Game Designer"; description := [] |} ] in
  corpus <> [] /\
  fit_transform sample_libs ([] :: map description corpus)
  = Raise (ValueError (lit "empty vocabulary")) /\
  process_resume_and_match_jobs sample_libs [] (collection_get corpus)
  = Return [matching_error (lit "empty vocabulary")].
Proof.
  intros corpus.
  assert (Hne : corpus <> []) by discriminate.
  split; [exact Hne|]. split; [reflexivity|].
  destruct (matcher_vectorizer_failure sample_libs sample_libs_spec
              [] [] corpus (ValueError (lit "empty vocabulary"))
              Hne eq_refl eq_refl) as (msg & E & _ & Hp).
  injection E as <-; exact Hp.
Defined.

(** The handler catches [ValueError] only. When the store answers with
    fewer metadata entries than documents, which no corpus of job records
    produces, the [IndexError] of [job_titles[i]] reaches the caller. *)
Example match_jobs_misaligned_store :
  match_jobs sample_libs (lit "resume")
    {| documents := [lit "levels"]; metadatas := [] |}
  = Raise IndexError.
Proof. reflexivity. Qed.

(** The matcher on the sample corpus: the two closest jobs first. *)
Example match_jobs_sample :
  match_jobs sample_libs (lit "teaching staff!") (collection_get sample_corpus)
  = Return [ Match (lit "IT Trainer") (1 # 2);
             Match (lit "Game Designer") (1 # 10);
             Match (lit "Data Engineer") (1 # 10) ].
Proof. vm_compute; reflexivity. Qed.

(** ** Stripping, further *)

Lemma blank_app (a b : str) :
  blank (a ++ b) = blank a && blank b.
Proof. apply forallb_app. Qed.

Lemma blank_rev (s : str) : blank (rev s) = blank s.
Proof.
  induction s as [|c s IH]; simpl; [reflexivity|].
  rewrite blank_app, IH; simpl; rewrite andb_true_r; apply andb_comm.
Qed.

Lemma lstrip_blank (s : str) : blank s = true -> lstrip s = [].
Proof.
  induction s as [|c s IH]; simpl; [reflexivity|].
  rewrite andb_true_iff; intros [-> H]; apply IH, H.
Qed.

Lemma lstrip_nil_blank (s : str) : lstrip s = [] -> blank s = true.
Proof.
  induction s as [|c s IH]; simpl; [reflexivity|].
  destruct (isspace c); [exact IH | discriminate].
Qed.

Lemma lstrip_app_blank (pre s : str) :
  blank pre = true -> lstrip (pre ++ s) = lstrip s.
Proof.
  induction pre as [|c pre IH]; simpl; [reflexivity|].
  rewrite andb_true_iff; intros [-> H]; apply IH, H.
Qed.

Lemma lstrip_app_nonblank (s post : str) :
  lstrip s <> [] -> lstrip (s ++ post) = lstrip s ++ post.
Proof.
  induction s as [|c s IH]; simpl; [congruence|].
  destruct (isspace c); [exact IH | reflexivity].
Qed.

Lemma lstrip_decompose (s : str) :
  exists pre, s = pre ++ lstrip s /\ blank pre = true.
Proof.
  induction s as [|c s (pre & E & B)]; simpl.
  - exists []; split; reflexivity.
  - destruct (isspace c) eqn:Hc.
    + exists (c :: pre); simpl; rewrite Hc, B; split; [congruence | reflexivity].
    + exists []; split; reflexivity.
Qed.

Lemma rstrip_decompose (s : str) :
  exists post, s = rstrip s ++ post /\ blank post = true.
Proof.
  destruct (lstrip_decompose (rev s)) as (pre & E & B).
  exists (rev pre); split; [|rewrite blank_rev; exact B].
  unfold rstrip; rewrite <- rev_app_distr, <- E, rev_involutive; reflexivity.
Qed.

Lemma rstrip_app_blank (s post : str) :
  blank post = true -> rstrip (s ++ post) = rstrip s.
Proof.
  intros B; unfold rstrip; rewrite rev_app_distr, lstrip_app_blank;
    [reflexivity | rewrite blank_rev; exact B].
Qed.

(** The stripped string is the string without a blank prefix and a blank
    suffix. *)
Lemma strip_decompose (s : str) :
  exists pre post,
    s = pre ++ strip s ++ post /\ blank pre = true /\ blank post = true.
Proof.
  destruct (lstrip_decompose s) as (pre & E1 & B1).
  destruct (rstrip_decompose (lstrip s)) as (post & E2 & B2).
  exists pre, post; split; [|split; assumption].
  unfold strip; rewrite <- E2; exact E1.
Qed.

Lemma strip_incl (s : str) (c : N) : In c (strip s) -> In c s.
Proof.
  destruct (strip_decompose s) as (pre & post & E & _); intros H.
  rewrite E; apply in_or_app; right; apply in_or_app; left; exact H.
Qed.

Lemma strip_length_le (s : str) : (len (strip s) <= len s)%nat.
Proof.
  destruct (strip_decompose s) as (pre & post & E & _).
  unfold len; rewrite E at 2; rewrite !length_app; lia.
Qed.

Lemma strip_blank (s : str) : blank s = true -> strip s = [].
Proof. intros B; unfold strip; rewrite (lstrip_blank s B); reflexivity. Qed.

(** Blank text around a string does not change what stripping leaves. *)
Lemma strip_pad (pre s post : str) :
  blank pre = true -> blank post = true ->
  strip (pre ++ s ++ post) = strip s.
Proof.
  intros Bpre Bpost; unfold strip.
  rewrite (lstrip_app_blank pre _ Bpre).
  destruct (lstrip s) as [|c t] eqn:E.
  - apply lstrip_nil_blank in E.
    rewrite lstrip_blank; [reflexivity|].
    rewrite blank_app, E, Bpost; reflexivity.
  - rewrite lstrip_app_nonblank by (rewrite E; discriminate).
    rewrite E; apply rstrip_app_blank, Bpost.
Qed.

Lemma lstrip_length_le (s : str) : (length (lstrip s) <= length s)%nat.
Proof.
  destruct (lstrip_decompose s) as (pre & E & _).
  rewrite E at 2; rewrite length_app; lia.
Qed.

(** A stripped string neither starts nor ends with whitespace. *)
Lemma strip_ends (s : str) :
  (forall c t, strip s = c :: t -> isspace c = false) /\
  (forall t c, strip s = t ++ [c] -> isspace c = false).
Proof.
  split.
  - intros c t E.
    pose proof (lstrip_rstrip_lstrip s) as H; fold (strip s) in H.
    destruct (lstrip_head (strip s)) as [H0 | (d & u & H1 & Hd)];
      rewrite H in *; congruence.
  - intros t c E.
    pose proof (rstrip_idem (lstrip s)) as H; fold (strip s) in H.
    destruct (isspace c) eqn:Hc; [exfalso | reflexivity].
    assert (Hl : length (rstrip (strip s)) = length (strip s))
      by (rewrite H; reflexivity).
    unfold rstrip in Hl; rewrite E, rev_app_distr in Hl; simpl in Hl.
    rewrite Hc, length_rev, length_app in Hl; simpl in Hl.
    pose proof (lstrip_length_le (rev t)) as Hle.
    rewrite length_rev in Hle; lia.
Qed.

(** ** The scorer, further *)

Lemma feedback_messages_distinct :
  feedback_excellent <> feedback_good /\
  feedback_excellent <> feedback_needs_improvement /\
  feedback_good <> feedback_needs_improvement.
Proof. repeat split; vm_compute; discriminate. Qed.

Lemma provide_feedback_by_count (answers : list str) :
  provide_feedback answers
  = (substantive_count answers,
     feedback_for (substantive_count answers) (length answers)).
Proof.
  unfold provide_feedback; cbv zeta.
  rewrite fold_count_answer, Nat.add_0_l.
  rewrite score_ge_08, score_ge_05; unfold feedback_for.
  set (s := substantive_count answers); set (n := length answers).
  replace (4 * Z.of_nat n <=? 5 * Z.of_nat s)%Z with (4 * n <=? 5 * s)%nat
    by (destruct (Nat.leb_spec (4 * n) (5 * s)); symmetry;
        [apply Z.leb_le | apply Z.leb_gt]; lia).
  replace (Z.of_nat n <=? 2 * Z.of_nat s)%Z with (n <=? 2 * s)%nat
    by (destruct (Nat.leb_spec n (2 * s)); symmetry;
        [apply Z.leb_le | apply Z.leb_gt]; lia).
  reflexivity.
Qed.

Lemma feedback_rank_for (s n : nat) :
  feedback_rank (feedback_for s n)
  = if (4 * n <=? 5 * s)%nat then 2%nat
    else if (n <=? 2 * s)%nat then 1%nat else 0%nat.
Proof.
  unfold feedback_for.
  destruct (4 * n <=? 5 * s)%nat; [reflexivity|].
  destruct (n <=? 2 * s)%nat; reflexivity.
Qed.

Lemma substantive_count_perm (a b : list str) :
  Permutation a b -> substantive_count a = substantive_count b.
Proof.
  unfold substantive_count.
  induction 1 as [|x l l' _ IH|x y l|l l' l'' _ IH1 _ IH2]; simpl.
  - reflexivity.
  - destruct (substantive x); simpl; congruence.
  - destruct (substantive x), (substantive y); reflexivity.
  - congruence.
Qed.

Lemma substantive_count_strip (xs ys : list str) :
  Forall2 (fun a b => strip a = strip b) xs ys ->
  substantive_count xs = substantive_count ys
  /\ length xs = length ys.
Proof.
  unfold substantive_count.
  induction 1 as [|a b xs ys E _ [IH1 IH2]]; simpl; [split; reflexivity|].
  assert (Hab : substantive a = substantive b)
    by (unfold substantive; rewrite E; reflexivity).
  rewrite Hab; destruct (substantive b); simpl; split; congruence.
Qed.

(** X1: The three tiers in integer arithmetic, for every list of answers, the
    empty one included: with [s] substantive answers out of [n], the
    feedback is "Excellent" exactly when [4 * n <= 5 * s], "Good" exactly
    when [n <= 2 * s] but [5 * s < 4 * n], and "Needs improvement" exactly
    when [2 * s < n]. *)
Theorem provide_feedback_thresholds (answers : list str) :
  let s := substantive_count answers in
  let n := length answers in
  fst (provide_feedback answers) = s /\
  (snd (provide_feedback answers) = feedback_excellent
     <-> (4 * n <= 5 * s)%nat) /\
  (snd (provide_feedback answers) = feedback_good
     <-> (n <= 2 * s /\ 5 * s < 4 * n)%nat) /\
  (snd (provide_feedback answers) = feedback_needs_improvement
     <-> (2 * s < n)%nat).
Proof.
  intros s n; rewrite provide_feedback_by_count; cbn [fst snd].
  fold s; fold n; unfold feedback_for.
  destruct feedback_messages_distinct as (D1 & D2 & D3).
  split; [reflexivity|].
  destruct (Nat.leb_spec (4 * n) (5 * s)); [|destruct (Nat.leb_spec n (2 * s))];
    repeat split; intros; try congruence; try lia;
    exfalso; try (symmetry in H1); try (symmetry in H2); intuition congruence.
Qed.

(** X2: The order of the answers does not matter. *)
Theorem provide_feedback_permutation (a b : list str) :
  Permutation a b -> provide_feedback a = provide_feedback b.
Proof.
  intros H; rewrite !provide_feedback_by_count.
  rewrite (substantive_count_perm a b H), (Permutation_length H).
  reflexivity.
Qed.

Lemma provide_feedback_permutation_witness :
  Permutation [a25; lit "short"; a25] [lit "short"; a25; a25] /\
  provide_feedback [a25; lit "short"; a25]
  = provide_feedback [lit "short"; a25; a25].
Proof.
  assert (H : Permutation [a25; lit "short"; a25] [lit "short"; a25; a25]).
  { apply perm_trans with [lit "short"; a25; a25];
      [apply perm_swap | apply Permutation_refl]. }
  split; [exact H | apply (provide_feedback_permutation _ _ H)].
Defined.

(** X3: Only the stripped answers count: two lists whose answers agree after
    stripping, position by position, get the same score and feedback. *)
Theorem provide_feedback_strip (xs ys : list str) :
  Forall2 (fun a b => strip a = strip b) xs ys ->
  provide_feedback xs = provide_feedback ys.
Proof.
  intros H; rewrite !provide_feedback_by_count.
  destruct (substantive_count_strip xs ys H) as [-> ->]; reflexivity.
Qed.

Lemma provide_feedback_strip_witness :
  Forall2 (fun a b => strip a = strip b)
          [lit "  yes  "; a25 ++ lit "   "] [lit "yes"; a25] /\
  provide_feedback [lit "  yes  "; a25 ++ lit "   "]
  = provide_feedback [lit "yes"; a25].
Proof.
  assert (H : Forall2 (fun a b => strip a = strip b)
                      [lit "  yes  "; a25 ++ lit "   "] [lit "yes"; a25]).
  { repeat constructor; vm_compute; reflexivity. }
  split; [exact H | apply (provide_feedback_strip _ _ H)].
Defined.

(** X4: With no more answers and no fewer substantive ones, the feedback is
    not worse: improving answers, or dropping some, never lowers it. *)
Theorem provide_feedback_monotone (a b : list str) :
  (length b <= length a)%nat ->
  (substantive_count a <= substantive_count b)%nat ->
  (feedback_rank (snd (provide_feedback a))
   <= feedback_rank (snd (provide_feedback b)))%nat.
Proof.
  intros Hn Hs; rewrite !provide_feedback_by_count; cbn [snd].
  rewrite !feedback_rank_for.
  destruct (Nat.leb_spec (4 * length a) (5 * substantive_count a));
    destruct (Nat.leb_spec (4 * length b) (5 * substantive_count b));
    destruct (Nat.leb_spec (length a) (2 * substantive_count a));
    destruct (Nat.leb_spec (length b) (2 * substantive_count b)); lia.
Qed.

Lemma provide_feedback_monotone_witness :
  (length [a25; a25] <= length [a25; lit "short"])%nat /\
  (feedback_rank (snd (provide_feedback [a25; lit "short"]))
   <= feedback_rank (snd (provide_feedback [a25; a25])))%nat.
Proof.
  assert (Hn : (length [a25; a25] <= length [a25; lit "short"])%nat)
    by (simpl; lia).
  assert (Hs : (substantive_count [a25; lit "short"]
                <= substantive_count [a25; a25])%nat)
    by (vm_compute; lia).
  split; [exact Hn | apply (provide_feedback_monotone _ _ Hn Hs)].
Defined.

(** X5: One more answer: a substantive one never lowers the feedback, any
    other never raises it. *)
Theorem provide_feedback_append (answers : list str) (a : str) :
  (substantive a = true ->
     (feedback_rank (snd (provide_feedback answers))
      <= feedback_rank (snd (provide_feedback (answers ++ [a]))))%nat) /\
  (substantive a = false ->
     (feedback_rank (snd (provide_feedback (answers ++ [a])))
      <= feedback_rank (snd (provide_feedback answers)))%nat).
Proof.
  rewrite !provide_feedback_by_count; cbn [snd].
  rewrite !feedback_rank_for.
  unfold substantive_count; rewrite filter_app, !length_app; simpl.
  split; intros ->; simpl;
    set (s := length (filter substantive answers));
    set (n := length answers);
    destruct (Nat.leb_spec (4 * n) (5 * s));
    destruct (Nat.leb_spec n (2 * s));
    repeat match goal with
           | |- context [(?x <=? ?y)%nat] => destruct (Nat.leb_spec x y)
           end; lia.
Qed.

Lemma provide_feedback_append_witness :
  substantive a25 = true /\
  (feedback_rank (snd (provide_feedback [lit "short"]))
   <= feedback_rank (snd (provide_feedback ([lit "short"] ++ [a25]))))%nat.
Proof.
  assert (H : substantive a25 = true) by reflexivity.
  split; [exact H|].
  apply (proj1 (provide_feedback_append [lit "short"] a25) H).
Defined.

(** X6: The two ends of the scale. A non-empty list without a substantive
    answer scores 0 and gets "Needs improvement"; an answer of exactly 20
    characters after stripping is not substantive. A list of substantive
    answers only scores its length and gets "Excellent". *)
Theorem provide_feedback_extremes (answers : list str) :
  (answers <> [] ->
   Forall (fun a => (len (strip a) <= 20)%nat) answers ->
   provide_feedback answers = (0%nat, feedback_needs_improvement)) /\
  (Forall (fun a => (21 <= len (strip a))%nat) answers ->
   provide_feedback answers = (length answers, feedback_excellent)).
Proof.
  rewrite provide_feedback_by_count; unfold substantive_count, feedback_for.
  split.
  - intros Hne H.
    assert (E : filter substantive answers = []).
    { clear Hne; induction H as [|a l Ha _ IH]; simpl; [reflexivity|].
      unfold substantive at 1.
      destruct (Nat.ltb_spec 20 (len (strip a))); [lia | exact IH]. }
    rewrite E; cbn [length].
    assert (Hn : (0 < length answers)%nat)
      by (destruct answers; [congruence | simpl; lia]).
    destruct (Nat.leb_spec (4 * length answers) (5 * 0)); [lia|].
    destruct (Nat.leb_spec (length answers) (2 * 0)); [lia | reflexivity].
  - intros H.
    assert (E : filter substantive answers = answers).
    { induction H as [|a l Ha _ IH]; simpl; [reflexivity|].
      unfold substantive at 1.
      destruct (Nat.ltb_spec 20 (len (strip a))); [congruence | lia]. }
    rewrite E.
    destruct (Nat.leb_spec (4 * length answers) (5 * length answers));
      [reflexivity | lia].
Qed.

Lemma provide_feedback_extremes_witness :
  let twenty := str_repeat (lit "a") 20 in
  [twenty; lit "  no  "] <> [] /\
  Forall (fun a => (len (strip a) <= 20)%nat) [twenty; lit "  no  "] /\
  provide_feedback [twenty; lit "  no  "]
  = (0%nat, feedback_needs_improvement).
Proof.
  intros twenty.
  assert (Hne : [twenty; lit "  no  "] <> []) by discriminate.
  assert (H : Forall (fun a => (len (strip a) <= 20)%nat)
                     [twenty; lit "  no  "]).
  { repeat constructor; vm_compute; lia. }
  split; [exact Hne|]. split; [exact H|].
  apply (proj1 (provide_feedback_extremes _) Hne H).
Defined.

(** X7: For fewer than [2^50] answers, taking the two products in binary64,
    rounded to nearest with ties to even, selects the same feedback as
    taking them exactly: the rounding moves no list across a threshold. *)
Theorem provide_feedback_binary64_agrees (answers : list str) :
  (Z.of_nat (length answers) < 2 ^ 50)%Z ->
  provide_feedback_binary64 answers = provide_feedback answers /\
  binary64_ge (Z.of_nat (substantive_count answers))
              (Z.of_nat (length answers)) m08
  = (4 * length answers <=? 5 * substantive_count answers)%nat.
Proof.
  intros Hn; split; [apply provide_feedback_binary64_eq, Hn|].
  rewrite binary64_ge_08 by (pose proof (substantive_count_le answers); lia).
  destruct (Nat.leb_spec (4 * length answers)
                         (5 * substantive_count answers));
    [apply Z.leb_le | apply Z.leb_gt]; lia.
Qed.

Lemma provide_feedback_binary64_agrees_witness :
  (Z.of_nat (length [a25; a25; lit "short"]) < 2 ^ 50)%Z /\
  provide_feedback_binary64 [a25; a25; lit "short"]
  = provide_feedback [a25; a25; lit "short"].
Proof.
  assert (H : (Z.of_nat (length [a25; a25; lit "short"]) < 2 ^ 50)%Z)
    by (vm_compute; reflexivity).
  split; [exact H|].
  apply (proj1 (provide_feedback_binary64_agrees _ H)).
Defined.

(** ** The question bank, further *)

Lemma dict_get_In {V : Type} (d : list (str * V)) (k : str) (v : V) :
  NoDup (dict_keys d) -> In (k, v) d -> dict_get d k = Some v.
Proof.
  induction d as [|[k' v'] d IH]; simpl; [intros _ []|].
  intros Hnd Hin; inversion Hnd as [|? ? Hk' Hd]; subst.
  destruct Hin as [E | Hin].
  - injection E as -> ->.
    apply dict_get_None in Hk'; rewrite Hk'.
    rewrite (proj2 (str_eqb_spec k k) eq_refl); reflexivity.
  - rewrite (IH Hd Hin); reflexivity.
Qed.

(** No key of the dictionary starts or ends with whitespace. *)
Lemma questions_keys_stripped (k : str) :
  In k (dict_keys questions) -> strip k = k.
Proof.
  assert (H : forallb (fun k => str_eqb (strip k) k) (dict_keys questions)
              = true) by (vm_compute; reflexivity).
  rewrite forallb_forall in H.
  intros Hin; apply str_eqb_spec, H, Hin.
Qed.

(** X8: Blank text before and after the title changes nothing, whatever the
    title is. *)
Theorem generate_questions_padding (pre s post : str) :
  blank pre = true -> blank post = true ->
  generate_questions_for_job (pre ++ s ++ post)
  = generate_questions_for_job s.
Proof.
  intros Hpre Hpost; unfold generate_questions_for_job; cbv zeta.
  rewrite (strip_pad pre s post Hpre Hpost); reflexivity.
Qed.

Lemma generate_questions_padding_witness :
  blank [9; 32]%N = true /\ blank [10]%N = true /\
  generate_questions_for_job ([9; 32]%N ++ lit "Scrum Master" ++ [10]%N)
  = generate_questions_for_job (lit "Scrum Master").
Proof.
  assert (H1 : blank [9; 32]%N = true) by reflexivity.
  assert (H2 : blank [10]%N = true) by reflexivity.
  split; [exact H1|]. split; [exact H2|].
  apply (generate_questions_padding _ _ _ H1 H2).
Defined.

(** X9: An empty or blank title is not a key: it gets the four generic
    questions with nothing in the place of the title. *)
Theorem generate_questions_blank (s : str) :
  blank s = true ->
  generate_questions_for_job s = default_questions [] /\
  nth 0 (generate_questions_for_job s) []
  = lit "What relevant experience do you have for the role of ?".
Proof.
  intros H; unfold generate_questions_for_job; cbv zeta.
  rewrite (strip_blank s H).
  split; vm_compute; reflexivity.
Qed.

Lemma generate_questions_blank_witness :
  blank (lit "   ") = true /\
  generate_questions_for_job (lit "   ") = default_questions [].
Proof.
  assert (H : blank (lit "   ") = true) by reflexivity.
  split; [exact H | apply (proj1 (generate_questions_blank _ H))].
Defined.

(** X10: Every entry of the dictionary is reachable: the questions stored under
    a key are what the function returns for that key, with or without
    blank text around it. *)
Theorem generate_questions_entry (k : str) (qs : list str)
    (pre post : str) :
  In (k, qs) questions ->
  blank pre = true -> blank post = true ->
  generate_questions_for_job (pre ++ k ++ post) = qs /\
  length qs = 6%nat.
Proof.
  intros Hin Hpre Hpost.
  split; [|apply (questions_all_six k qs Hin)].
  unfold generate_questions_for_job; cbv zeta.
  rewrite (strip_pad pre k post Hpre Hpost).
  rewrite (questions_keys_stripped k)
    by (apply in_map_iff; exists (k, qs); split; [reflexivity | exact Hin]).
  rewrite (dict_get_In questions k qs (proj2 questions_keys_NoDup) Hin).
  reflexivity.
Qed.

Lemma generate_questions_entry_witness :
  In (lit "IT Trainer", generate_it_trainer_questions) questions /\
  generate_questions_for_job (lit " " ++ lit "IT Trainer" ++ lit "  ")
  = generate_it_trainer_questions.
Proof.
  assert (H : In (lit "IT Trainer", generate_it_trainer_questions) questions).
  { apply dict_get_Some_In; vm_compute; reflexivity. }
  split; [exact H|].
  apply (proj1 (generate_questions_entry _ _ (lit " ") (lit "  ") H
                  eq_refl eq_refl)).
Defined.

(** X11: Every title of [job_titles] other than ["UX/UI Designer"] and ["Chief
    Technology Officer (CTO)"] is a key of the dictionary: the function
    returns the six questions stored under that very title. *)
Theorem job_titles_covered (t : str) :
  In t job_titles ->
  t <> lit "UX/UI Designer" ->
  t <> lit "Chief Technology Officer (CTO)" ->
  In (t, generate_questions_for_job t) questions /\
  length (generate_questions_for_job t) = 6%nat.
Proof.
  intros Hin H1 H2.
  assert (H : forallb
                (fun t => str_eqb t (lit "UX/UI Designer")
                          || str_eqb t (lit "Chief Technology Officer (CTO)")
                          || existsb (str_eqb t) (dict_keys questions))
                job_titles = true) by (vm_compute; reflexivity).
  rewrite forallb_forall in H; specialize (H t Hin).
  rewrite !orb_true_iff, !str_eqb_spec, existsb_str_eqb_In in H.
  destruct H as [[H | H] | H]; [contradiction | contradiction |].
  pose proof (questions_keys_stripped t H) as Hs.
  assert (Hk : In (strip t) (dict_keys questions)) by (rewrite Hs; exact H).
  pose proof (generate_questions_known t Hk) as Hq; rewrite Hs in Hq.
  split; [exact Hq | apply (questions_all_six _ _ Hq)].
Qed.

Lemma job_titles_covered_witness :
  In (lit "Game Designer") job_titles /\
  length (generate_questions_for_job (lit "Game Designer")) = 6%nat.
Proof.
  assert (H : In (lit "Game Designer") job_titles)
    by (apply existsb_str_eqb_In; vm_compute; reflexivity).
  split; [exact H|].
  apply (proj2 (job_titles_covered _ H
                  ltac:(vm_compute; discriminate)
                  ltac:(vm_compute; discriminate))).
Defined.

(** ** The matcher, further *)

Lemma StronglySorted_app_le {A : Type} (R : A -> A -> Prop)
    (l1 l2 : list A) (x y : A) :
  StronglySorted R (l1 ++ l2) -> In x l1 -> In y l2 -> R x y.
Proof.
  induction l1 as [|a l1 IH]; simpl; intros Hs Hx Hy; [contradiction|].
  inversion Hs as [|? ? Hl Ha]; subst.
  destruct Hx as [-> | Hx]; [|apply IH; assumption].
  rewrite Forall_forall in Ha; apply Ha, in_or_app; right; exact Hy.
Qed.

Lemma NoDup_skipn {A : Type} (n : nat) (l : list A) :
  NoDup l -> NoDup (skipn n l).
Proof.
  intros H; rewrite <- (firstn_skipn n l) in H.
  apply NoDup_app_remove_l in H; exact H.
Qed.

Lemma map_nth_seq {A : Type} (l : list A) (d : A) :
  map (fun i => nth i l d) (seq 0 (length l)) = l.
Proof.
  induction l as [|x l IH]; simpl; [reflexivity|].
  rewrite <- seq_shift, map_map; simpl; rewrite IH; reflexivity.
Qed.

Lemma mapM_Raise {A B : Type} (f : A -> result B) (e : exn) (l : list A) :
  (forall x, In x l -> (exists y, f x = Return y) \/ f x = Raise e) ->
  Exists (fun x => f x = Raise e) l ->
  mapM f l = Raise e.
Proof.
  induction l as [|x l IH]; intros Hall Hex; [inversion Hex|].
  simpl; destruct (Hall x (or_introl eq_refl)) as [[y Hy] | Hx].
  - rewrite Hy; cbn [bind].
    rewrite IH; [reflexivity | intros z Hz; apply Hall; right; exact Hz |].
    inversion Hex as [? ? H | ? ? H]; subst; [congruence | exact H].
  - rewrite Hx; reflexivity.
Qed.

Lemma fold_left_app_concat (pages : list str) (acc : str) :
  fold_left (fun text page => text ++ page) pages acc = acc ++ concat pages.
Proof.
  revert acc; induction pages as [|p pages IH]; intros acc; simpl.
  - rewrite app_nil_r; reflexivity.
  - rewrite IH, app_assoc; reflexivity.
Qed.

Section MatcherFurther.

Variable L : Libs.
Hypothesis HL : LibsSpec L.

Lemma top_indices_NoDup (sims : list Q) : NoDup (top_indices L sims).
Proof.
  unfold top_indices, last_n.
  apply NoDup_rev, NoDup_skipn.
  apply (Permutation_NoDup (Permutation_sym (argsort_perm L HL sims))).
  apply seq_NoDup.
Qed.

(** What is left out is not more similar than what is kept. *)
Lemma top_indices_best (sims : list Q) (i j : nat) :
  In i (top_indices L sims) -> (j < length sims)%nat ->
  ~ In j (top_indices L sims) ->
  (nth j sims 0 <= nth i sims 0)%Q.
Proof.
  unfold top_indices, last_n; intros Hi Hj Hnj.
  set (k := (length (argsort L sims) - 5)%nat) in *.
  apply in_rev in Hi.
  assert (Hjin : In j (argsort L sims)).
  { apply (Permutation_in _ (Permutation_sym (argsort_perm L HL sims))).
    apply in_seq; lia. }
  rewrite <- (firstn_skipn k (argsort L sims)) in Hjin.
  apply in_app_or in Hjin as [Hjf | Hjs];
    [|exfalso; apply Hnj; rewrite <- in_rev; exact Hjs].
  pose proof (argsort_sorted L HL sims) as Hs.
  apply Sorted_StronglySorted in Hs; [|exact Qle_transitive].
  rewrite <- (firstn_skipn k (argsort L sims)), map_app in Hs.
  apply (StronglySorted_app_le _ _ _ _ _ Hs);
    apply (in_map (fun i => nth i sims 0%Q)); assumption.
Qed.

Lemma top_indices_small (sims : list Q) :
  (length sims <= 5)%nat ->
  Permutation (top_indices L sims) (seq 0 (length sims)).
Proof.
  intros Hn; unfold top_indices, last_n.
  rewrite (argsort_length L HL).
  replace (length sims - 5)%nat with 0%nat by lia; cbn [skipn].
  rewrite <- (argsort_perm L HL sims); symmetry; apply Permutation_rev.
Qed.

(** With the rows of the TF-IDF matrix at hand, the result of the matcher
    read as entries of jobs. *)
Lemma match_jobs_rows (resume_text : str) (corpus : list JobRecord)
    (r0 : vec L) (rest : list (vec L)) :
  corpus <> [] ->
  fit_transform L (resume_text :: map description corpus)
  = Return (r0 :: rest) ->
  length rest = length corpus /\
  match_jobs L resume_text (collection_get corpus)
  = Return (map (job_entry L corpus r0 rest)
                (top_indices L (map (cosine L r0) rest))).
Proof.
  intros Hne Hfit.
  pose proof (fit_transform_rows L HL _ _ Hfit) as Hrows.
  simpl in Hrows; injection Hrows as Hrows; rewrite length_map in Hrows.
  split; [exact Hrows|].
  unfold match_jobs; rewrite collection_titles; cbn [bind].
  cbn [collection_get documents].
  destruct corpus as [|job corpus]; [congruence|].
  cbn [map] in *; unfold rank_jobs; rewrite Hfit; cbn [bind firstn skipn].
  unfold flatten, cosine_similarity; cbn [map concat]; rewrite app_nil_r.
  set (sims := map (cosine L r0) rest).
  set (titles := title job :: map title corpus).
  assert (Hs : length sims = length rest) by apply length_map.
  assert (Ht : length titles = length rest)
    by (unfold titles; simpl; rewrite length_map; simpl in Hrows; lia).
  rewrite (mapM_Return _ (job_entry L (job :: corpus) r0 rest));
    [reflexivity|].
  apply Forall_forall; intros i Hi.
  apply (top_indices_range L HL) in Hi.
  rewrite (getitem_nth titles i []) by lia.
  rewrite (getitem_nth sims i 0%Q) by lia; cbn [bind].
  unfold job_entry, job_similarity, sims.
  rewrite (nth_indep _ 0%Q (cosine L r0 r0)) by (rewrite length_map; lia).
  rewrite map_nth; reflexivity.
Qed.

(** The similarities of the jobs kept, in the order of the result. *)
Lemma top_indices_similarity (r0 : vec L) (rest : list (vec L)) :
  map (job_similarity L r0 rest) (top_indices L (map (cosine L r0) rest))
  = map (fun i => nth i (map (cosine L r0) rest) 0%Q)
        (top_indices L (map (cosine L r0) rest)).
Proof.
  apply map_ext_in; intros i Hi.
  apply (top_indices_range L HL) in Hi; rewrite length_map in Hi.
  unfold job_similarity.
  rewrite (nth_indep _ 0%Q (cosine L r0 r0)) by (rewrite length_map; lia).
  symmetry; apply map_nth.
Qed.

End MatcherFurther.

(** C2: for a corpus of [n >= 1] jobs on which the vectorizer succeeds, the
    TF-IDF matrix is the row [r0] of the resume followed by one row per
    job, and the matcher returns exactly [min(5, n)] entries. Each entry
    is that of a job of the corpus: its title with the cosine similarity
    of [r0] and the row of that very job. No job comes twice, the
    similarities are in descending order (every entry's similarity is at
    most that of each entry before it, so the first is the greatest), and
    no job left out is more similar to the resume than a job returned. *)
Theorem matcher_top_five (L : Libs) (HL : LibsSpec L) (pdf_file : list N)
    (resume_text : str) (corpus : list JobRecord) (m : list (vec L)) :
  (1 <= length corpus)%nat ->
  extract_text_from_pdf L pdf_file = Return resume_text ->
  fit_transform L (resume_text :: map description corpus) = Return m ->
  exists (r0 : vec L) (rest : list (vec L)) (top : list nat),
    m = r0 :: rest /\ length rest = length corpus /\
    process_resume_and_match_jobs L pdf_file (collection_get corpus)
    = Return (map (job_entry L corpus r0 rest) top) /\
    length top = Nat.min 5 (length corpus) /\
    NoDup top /\
    Forall (fun i => (i < length corpus)%nat) top /\
    descending (map (job_similarity L r0 rest) top) /\
    forall i j, In i top -> (j < length corpus)%nat -> ~ In j top ->
                (job_similarity L r0 rest j <= job_similarity L r0 rest i)%Q.
Proof.
  intros Hn Htext Hfit.
  pose proof (fit_transform_rows L HL _ _ Hfit) as Hm.
  destruct m as [|r0 rest]; [discriminate|].
  assert (Hne : corpus <> [])
    by (destruct corpus; [simpl in Hn; lia | discriminate]).
  destruct (match_jobs_rows L HL resume_text corpus r0 rest Hne Hfit)
    as [Hrows Hmatch].
  set (sims := map (cosine L r0) rest) in *.
  assert (Hs : length sims = length corpus)
    by (unfold sims; rewrite length_map; exact Hrows).
  exists r0, rest, (top_indices L sims).
  split; [reflexivity|]. split; [exact Hrows|].
  split; [unfold process_resume_and_match_jobs; rewrite Htext; exact Hmatch|].
  split; [rewrite (top_indices_length L HL), Hs; reflexivity|].
  split; [apply (top_indices_NoDup L HL)|].
  split; [|split].
  - apply Forall_forall; intros i Hi; rewrite <- Hs.
    apply (top_indices_range L HL), Hi.
  - unfold sims; rewrite (top_indices_similarity L HL).
    apply (top_indices_descending L HL).
  - intros i j Hi Hj Hnj.
    pose proof (top_indices_range L HL sims i Hi) as Hir.
    pose proof (top_indices_best L HL sims i j Hi) as Hb.
    rewrite Hs in Hb, Hir; specialize (Hb Hj Hnj).
    assert (Hnth : forall k, (k < length rest)%nat ->
                             nth k sims 0%Q = job_similarity L r0 rest k).
    { intros k Hk; unfold sims, job_similarity.
      rewrite (nth_indep _ 0%Q (cosine L r0 r0)) by (rewrite length_map; lia).
      apply map_nth. }
    rewrite <- !Hnth by lia; exact Hb.
Qed.

Lemma matcher_top_five_witness :
  let resume_text := lit "teaching staff!" in
  let r0 := of_int (len resume_text) in
  let rest := map (fun d => of_int (len d)) (map description larger_corpus) in
  (1 <= length larger_corpus)%nat /\
  extract_text_from_pdf sample_libs resume_text = Return resume_text /\
  fit_transform sample_libs (resume_text :: map description larger_corpus)
  = Return (r0 :: rest) /\
  exists top : list nat,
    process_resume_and_match_jobs sample_libs resume_text
      (collection_get larger_corpus)
    = Return (map (job_entry sample_libs larger_corpus r0 rest) top) /\
    length top = 5%nat /\
    descending (map (job_similarity sample_libs r0 rest) top) /\
    forall i j, In i top -> (j < 7)%nat -> ~ In j top ->
                (job_similarity sample_libs r0 rest j
                 <= job_similarity sample_libs r0 rest i)%Q.
Proof.
  intros resume_text r0 rest.
  assert (Hn : (1 <= length larger_corpus)%nat) by (simpl; lia).
  assert (Ht : extract_text_from_pdf sample_libs resume_text
               = Return resume_text) by reflexivity.
  assert (Hf : fit_transform sample_libs
                 (resume_text :: map description larger_corpus)
               = Return (r0 :: rest)) by reflexivity.
  split; [exact Hn|]. split; [exact Ht|]. split; [exact Hf|].
  destruct (matcher_top_five sample_libs sample_libs_spec resume_text
              resume_text larger_corpus (r0 :: rest) Hn Ht Hf)
    as (r0' & rest' & top & Hm & _ & Hr & Hl & _ & _ & Hd & Hb).
  injection Hm as <- <-.
  exists top.
  split; [exact Hr|]. split; [exact Hl|]. split; [exact Hd | exact Hb].
Defined.

(** The matcher on the corpus of seven jobs: the five closest, the closest
    first; the jobs left out, at positions 4 and 5, are the two least
    similar. *)
Example match_jobs_larger_corpus :
  match_jobs sample_libs (lit "teaching staff!") (collection_get larger_corpus)
  = Return (map (job_entry sample_libs larger_corpus (of_int 15)
                   (map (fun d => of_int (len d))
                        (map description larger_corpus)))
                [3; 2; 6; 1; 0]%nat).
Proof. vm_compute; reflexivity. Qed.

(** X12: Each returned entry is a job of the corpus with the similarity of the
    resume and that job, no job is returned twice, and no job that is left
    out is more similar to the resume than one that is returned. *)
Theorem matcher_best_matches (L : Libs) (HL : LibsSpec L)
    (pdf_file : list N) (resume_text : str) (corpus : list JobRecord)
    (r0 : vec L) (rest : list (vec L)) :
  corpus <> [] ->
  extract_text_from_pdf L pdf_file = Return resume_text ->
  fit_transform L (resume_text :: map description corpus)
  = Return (r0 :: rest) ->
  exists top : list nat,
    process_resume_and_match_jobs L pdf_file (collection_get corpus)
    = Return (map (job_entry L corpus r0 rest) top) /\
    NoDup top /\
    Forall (fun i => (i < length corpus)%nat) top /\
    forall i j, In i top -> (j < length corpus)%nat -> ~ In j top ->
                (job_similarity L r0 rest j <= job_similarity L r0 rest i)%Q.
Proof.
  intros Hne Htext Hfit.
  destruct (match_jobs_rows L HL resume_text corpus r0 rest Hne Hfit)
    as [Hrows Hm].
  set (sims := map (cosine L r0) rest) in *.
  assert (Hs : length sims = length corpus)
    by (unfold sims; rewrite length_map; exact Hrows).
  exists (top_indices L sims); split; [|split; [|split]].
  - unfold process_resume_and_match_jobs; rewrite Htext; exact Hm.
  - apply (top_indices_NoDup L HL).
  - apply Forall_forall; intros i Hi; rewrite <- Hs.
    apply (top_indices_range L HL), Hi.
  - intros i j Hi Hj Hnj.
    pose proof (top_indices_range L HL sims i Hi) as Hir.
    pose proof (top_indices_best L HL sims i j Hi) as Hb.
    rewrite Hs in Hb; specialize (Hb Hj Hnj).
    unfold job_similarity.
    assert (Hnth : forall k, (k < length rest)%nat ->
                             nth k sims 0%Q = cosine L r0 (nth k rest r0)).
    { intros k Hk; unfold sims.
      rewrite (nth_indep _ 0%Q (cosine L r0 r0)) by (rewrite length_map; lia).
      apply map_nth. }
    rewrite <- !Hnth by lia; exact Hb.
Qed.

Lemma matcher_best_matches_witness :
  let resume_text := lit "teaching staff!" in
  sample_corpus <> [] /\
  exists top : list nat,
    process_resume_and_match_jobs sample_libs resume_text
      (collection_get sample_corpus)
    = Return (map (job_entry sample_libs sample_corpus (of_int 15)
                     [of_int 24; of_int 6; of_int 14]) top) /\
    NoDup top.
Proof.
  intros resume_text.
  assert (Hne : sample_corpus <> []) by discriminate.
  split; [exact Hne|].
  destruct (matcher_best_matches sample_libs sample_libs_spec resume_text
              resume_text sample_corpus (of_int 15)
              [of_int 24; of_int 6; of_int 14] Hne eq_refl eq_refl)
    as (top & Hr & Hd & _).
  exists top; split; [exact Hr | exact Hd].
Defined.

(** X13: A corpus of at most five jobs is returned whole: the titles of the
    result are those of the corpus, each once, in some order. *)
Theorem matcher_small_corpus (L : Libs) (HL : LibsSpec L)
    (pdf_file : list N) (resume_text : str) (corpus : list JobRecord)
    (m : list (vec L)) :
  (1 <= length corpus <= 5)%nat ->
  extract_text_from_pdf L pdf_file = Return resume_text ->
  fit_transform L (resume_text :: map description corpus) = Return m ->
  exists ranked : list (str * Q),
    process_resume_and_match_jobs L pdf_file (collection_get corpus)
    = Return (matches ranked) /\
    Permutation (map fst ranked) (map title corpus).
Proof.
  intros [Hn1 Hn5] Htext Hfit.
  destruct (match_jobs_success L HL resume_text corpus m Hn1 Hfit)
    as (sims & Hs & Hm).
  exists (map (fun i => (nth i (map title corpus) [], nth i sims 0%Q))
              (top_indices L sims)); split.
  - unfold process_resume_and_match_jobs; rewrite Htext; cbn [bind].
    rewrite Hm; unfold matches; rewrite map_map; reflexivity.
  - rewrite map_map; cbn [fst].
    rewrite (top_indices_small L HL sims) by lia.
    rewrite Hs, <- (length_map title corpus).
    rewrite map_nth_seq; reflexivity.
Qed.

Lemma matcher_small_corpus_witness :
  let resume_text := lit "teaching staff!" in
  (1 <= length sample_corpus <= 5)%nat /\
  exists ranked : list (str * Q),
    process_resume_and_match_jobs sample_libs resume_text
      (collection_get sample_corpus)
    = Return (matches ranked) /\
    Permutation (map fst ranked) (map title sample_corpus).
Proof.
  intros resume_text.
  assert (Hn : (1 <= length sample_corpus <= 5)%nat) by (simpl; lia).
  split; [exact Hn|].
  apply (matcher_small_corpus sample_libs sample_libs_spec resume_text
           resume_text sample_corpus
           (map (fun d => of_int (len d))
                (resume_text :: map description sample_corpus))
           Hn eq_refl eq_refl).
Defined.

(** X14: On a corpus of job records the matcher raises nothing and its list is
    never empty. It is the single message of the empty corpus, or the
    single message of a vectorizer error, or between one and five matches;
    a message and a match never come together. *)
Theorem match_jobs_total (L : Libs) (HL : LibsSpec L) (resume_text : str)
    (corpus : list JobRecord) :
  (corpus = [] /\
   match_jobs L resume_text (collection_get corpus)
   = Return [no_job_descriptions]) \/
  (corpus <> [] /\
   exists msg : str,
     fit_transform L (resume_text :: map description corpus)
     = Raise (ValueError msg) /\
     match_jobs L resume_text (collection_get corpus)
     = Return [matching_error msg]) \/
  (corpus <> [] /\
   exists ranked : list (str * Q),
     match_jobs L resume_text (collection_get corpus)
     = Return (matches ranked) /\
     (1 <= length ranked <= 5)%nat).
Proof.
  destruct corpus as [|job corpus]; [left; split; reflexivity | right].
  assert (Hne : job :: corpus <> []) by discriminate.
  destruct (fit_transform L (resume_text :: map description (job :: corpus)))
    as [m | e] eqn:Hfit.
  - right; split; [exact Hne|].
    destruct (match_jobs_success L HL resume_text (job :: corpus) m)
      as (sims & Hs & Hm); [simpl; lia | exact Hfit |].
    exists (map (fun i => (nth i (map title (job :: corpus)) [],
                           nth i sims 0%Q))
                (top_indices L sims)); split.
    + rewrite Hm; unfold matches; rewrite map_map; reflexivity.
    + rewrite length_map, (top_indices_length L HL), Hs; cbn [length]; lia.
  - left; split; [exact Hne|].
    destruct (fit_transform_error L HL _ _ Hfit) as [msg ->].
    exists msg; split; [reflexivity|].
    unfold match_jobs; rewrite collection_titles; cbn [bind].
    cbn [collection_get documents map] in *.
    unfold rank_jobs; rewrite Hfit; reflexivity.
Qed.

Lemma match_jobs_total_witness :
  exists ranked : list (str * Q),
    match_jobs sample_libs (lit "teaching staff!")
      (collection_get sample_corpus)
    = Return (matches ranked) /\
    (1 <= length ranked <= 5)%nat.
Proof.
  destruct (match_jobs_total sample_libs sample_libs_spec
              (lit "teaching staff!") sample_corpus)
    as [[H _] | [(_ & msg & H & _) | [_ H]]].
  - discriminate H.
  - discriminate H.
  - exact H.
Defined.

(** X15: The titles are read before the documents are looked at. When a
    metadata dictionary of the store has no ["jobTitle"] key, the function
    raises [KeyError], also when the store holds no document at all. *)
Theorem match_jobs_missing_title (L : Libs) (resume_text : str)
    (results : get_result) :
  Exists (fun metadata => dict_get metadata (lit "jobTitle") = None)
         (metadatas results) ->
  match_jobs L resume_text results = Raise (KeyError (lit "jobTitle")) /\
  forall pdf_file,
    extract_text_from_pdf L pdf_file = Return resume_text ->
    process_resume_and_match_jobs L pdf_file results
    = Raise (KeyError (lit "jobTitle")).
Proof.
  intros Hex.
  assert (Hm : match_jobs L resume_text results
               = Raise (KeyError (lit "jobTitle"))).
  { unfold match_jobs.
    rewrite (mapM_Raise _ (KeyError (lit "jobTitle"))); [reflexivity | | ].
    - intros md _; unfold dict_getitem.
      destruct (dict_get md (lit "jobTitle")) as [t|];
        [left; exists t; reflexivity | right; reflexivity].
    - apply Exists_exists in Hex as (md & Hin & Hmd).
      apply Exists_exists; exists md; split; [exact Hin|].
      unfold dict_getitem; rewrite Hmd; reflexivity. }
  split; [exact Hm|].
  intros pdf_file Ht.
  unfold process_resume_and_match_jobs; rewrite Ht; exact Hm.
Qed.

Lemma match_jobs_missing_title_witness :
  Exists (fun metadata => dict_get metadata (lit "jobTitle") = None)
         (metadatas store_without_titles) /\
  match_jobs sample_libs (lit "resume") store_without_titles
  = Raise (KeyError (lit "jobTitle")).
Proof.
  assert (H : Exists (fun metadata => dict_get metadata (lit "jobTitle") = None)
                     (metadatas store_without_titles))
    by (constructor; reflexivity).
  split; [exact H|].
  apply (proj1 (match_jobs_missing_title sample_libs (lit "resume") _ H)).
Defined.

(** X16: The text of a PDF is the text of its pages, in order, with nothing in
    between. When the PDF cannot be opened, the exception leaves
    [process_resume_and_match_jobs] as it is, before the store is read:
    there is no handler around the extraction. *)
Theorem extract_text_from_pdf_pages (L : Libs) (pdf_file : list N) :
  (forall pages,
     fitz_open L pdf_file = Return pages ->
     extract_text_from_pdf L pdf_file = Return (concat pages)) /\
  (forall e,
     fitz_open L pdf_file = Raise e ->
     extract_text_from_pdf L pdf_file = Raise e /\
     forall results,
       process_resume_and_match_jobs L pdf_file results = Raise e).
Proof.
  split.
  - intros pages H; unfold extract_text_from_pdf; rewrite H; cbn [bind].
    rewrite fold_left_app_concat; reflexivity.
  - intros e H.
    assert (He : extract_text_from_pdf L pdf_file = Raise e)
      by (unfold extract_text_from_pdf; rewrite H; reflexivity).
    split; [exact He|].
    intros results; unfold process_resume_and_match_jobs; rewrite He.
    reflexivity.
Qed.

Lemma extract_text_from_pdf_pages_witness :
  fitz_open sample_libs (lit "one page") = Return [lit "one page"] /\
  extract_text_from_pdf sample_libs (lit "one page")
  = Return (concat [lit "one page"]).
Proof.
  split; [reflexivity|].
  apply (proj1 (extract_text_from_pdf_pages sample_libs (lit "one page"))
               [lit "one page"] eq_refl).
Defined.

(** ** Splitting and joining *)

Lemma split_on_nonempty (sep : N) (s : str) : split_on sep s <> [].
Proof.
  destruct s as [|c s]; simpl; [discriminate|].
  destruct (c =? sep)%N; [discriminate|].
  destruct (split_on sep s); discriminate.
Qed.

Lemma split_on_sep_free (sep : N) (x : str) :
  ~ In sep x -> split_on sep x = [x].
Proof.
  induction x as [|c x IH]; simpl; intros H; [reflexivity|].
  destruct (N.eqb_spec c sep) as [E | _]; [exfalso; apply H; left; exact E|].
  rewrite IH by (intros Hin; apply H; right; exact Hin); reflexivity.
Qed.

Lemma split_on_app (sep : N) (x r : str) :
  ~ In sep x -> split_on sep (x ++ sep :: r) = x :: split_on sep r.
Proof.
  induction x as [|c x IH]; simpl; intros H.
  - rewrite N.eqb_refl; reflexivity.
  - destruct (N.eqb_spec c sep) as [E | _];
      [exfalso; apply H; left; exact E|].
    rewrite IH by (intros Hin; apply H; right; exact Hin); reflexivity.
Qed.

(** The pieces of a split hold no separator, and only characters of the
    string. *)
Lemma split_on_pieces (sep : N) (s piece : str) :
  In piece (split_on sep s) ->
  ~ In sep piece /\ forall c, In c piece -> In c s.
Proof.
  revert piece; induction s as [|c s IH]; simpl; intros piece Hin.
  - destruct Hin as [<- | []]; split; [intros [] | intros c []].
  - destruct (N.eqb_spec c sep) as [E | NE].
    + destruct Hin as [<- | Hin]; [split; [intros [] | intros d []]|].
      destruct (IH piece Hin) as [H1 H2]; split; [exact H1|].
      intros d Hd; right; apply H2, Hd.
    + destruct (split_on sep s) as [|p ps] eqn:Es.
      * destruct Hin as [<- | []]; split.
        -- intros [H | []]; congruence.
        -- intros d [<- | []]; left; reflexivity.
      * destruct Hin as [<- | Hin].
        -- destruct (IH p (or_introl eq_refl)) as [H1 H2]; split.
           ++ intros [H | H]; [congruence | contradiction].
           ++ intros d [<- | Hd]; [left; reflexivity | right; apply H2, Hd].
        -- destruct (IH piece (or_intror Hin)) as [H1 H2]; split;
             [exact H1|].
           intros d Hd; right; apply H2, Hd.
Qed.

(** Joining the pieces of a split gives the string back. *)
Lemma join_split_on (sep : N) (s : str) :
  join [sep] (split_on sep s) = s.
Proof.
  induction s as [|c s IH]; simpl; [reflexivity|].
  pose proof (split_on_nonempty sep s) as Hne.
  destruct (N.eqb_spec c sep) as [-> | _];
    destruct (split_on sep s) as [|p ps]; try congruence.
  - cbn [join app] in *; rewrite IH; reflexivity.
  - destruct ps as [|q ps]; cbn [join] in *; rewrite <- IH; reflexivity.
Qed.

(** Splitting a join of pieces without separator gives the pieces back. *)
Lemma split_on_join (sep : N) (ls : list str) :
  ls <> [] -> Forall (fun l => ~ In sep l) ls ->
  split_on sep (join [sep] ls) = ls.
Proof.
  induction ls as [|x ls IH]; intros Hne Hall; [congruence|].
  inversion Hall as [|? ? Hx Hls]; subst.
  destruct ls as [|y ls].
  - apply split_on_sep_free, Hx.
  - change (join [sep] (x :: y :: ls))
      with (x ++ sep :: join [sep] (y :: ls)).
    rewrite (split_on_app sep x _ Hx).
    rewrite IH; [reflexivity | discriminate | exact Hls].
Qed.

(** ** Resume formatting *)

Lemma formatted_lines_flat_map (U : Unicode) (lines : list str)
    (acc : list str) :
  fold_left (fun formatted_lines line => formatted_lines ++ format_line U line)
            lines acc
  = acc ++ flat_map (format_line U) lines.
Proof.
  revert acc; induction lines as [|l lines IH]; intros acc; simpl.
  - rewrite app_nil_r; reflexivity.
  - rewrite IH, app_assoc; reflexivity.
Qed.

Lemma format_resume_text_flat_map (U : Unicode) (resume_text : str) :
  format_resume_text U resume_text
  = join [LF] (flat_map (format_line U) (split_on LF resume_text)).
Proof.
  unfold format_resume_text; cbv zeta.
  rewrite formatted_lines_flat_map; reflexivity.
Qed.

Lemma flat_map_all_nil {A B : Type} (f : A -> list B) (l : list A) :
  Forall (fun x => f x = []) l -> flat_map f l = [].
Proof.
  induction 1 as [|x l Hx _ IH]; simpl; [reflexivity|].
  rewrite Hx, IH; reflexivity.
Qed.

Lemma is_heading_nil (U : Unicode) : is_heading U [] = false.
Proof. reflexivity. Qed.

(** Without headings, the loop keeps the stripped lines that are not
    empty. *)
Lemma flat_map_format_line_plain (U : Unicode) (lines : list str) :
  Forall (fun line => is_heading U (strip line) = false) lines ->
  flat_map (format_line U) lines = filter nonempty (map strip lines).
Proof.
  induction 1 as [|l lines Hl _ IH]; simpl; [reflexivity|].
  unfold format_line at 1; cbv zeta; rewrite Hl, IH.
  destruct (strip l); reflexivity.
Qed.

Lemma kept_lines_spec (resume_text line : str) :
  In line (kept_lines resume_text) ->
  line <> [] /\ strip line = line /\ ~ In LF line /\
  exists l, In l (split_on LF resume_text) /\ line = strip l.
Proof.
  unfold kept_lines; intros H.
  apply filter_In in H as [H Hne].
  apply in_map_iff in H as (l & <- & Hl).
  split; [destruct (strip l); [discriminate | discriminate]|].
  split; [apply strip_idem|].
  split; [|exists l; split; [exact Hl | reflexivity]].
  intros Hin; apply strip_incl in Hin.
  apply (proj1 (split_on_pieces LF resume_text l Hl)), Hin.
Qed.

(** X17: A text of whitespace only, the empty text included, is formatted to
    the empty text. *)
Theorem format_resume_text_blank (U : Unicode) (resume_text : str) :
  blank resume_text = true -> format_resume_text U resume_text = [].
Proof.
  intros HB; rewrite format_resume_text_flat_map.
  assert (E : flat_map (format_line U) (split_on LF resume_text) = []).
  { apply flat_map_all_nil.
    apply Forall_forall; intros piece Hin.
    assert (Hp : blank piece = true).
    { unfold blank in *; rewrite forallb_forall in *.
      intros c Hc; apply HB.
      apply (proj2 (split_on_pieces LF resume_text piece Hin)), Hc. }
    unfold format_line; cbv zeta; rewrite (strip_blank piece Hp).
    reflexivity. }
  rewrite E; reflexivity.
Qed.

Lemma format_resume_text_blank_witness :
  blank (lit "   " ++ [LF; 9; LF]%N) = true /\
  format_resume_text ascii_case (lit "   " ++ [LF; 9; LF]%N) = [].
Proof.
  assert (H : blank (lit "   " ++ [LF; 9; LF]%N) = true) by reflexivity.
  split; [exact H | apply (format_resume_text_blank _ _ H)].
Defined.

(** With lines that are not empty, stripped and not headings, the loop
    keeps every line as it is. *)
Lemma flat_map_format_line_fixed (U : Unicode) (lines : list str) :
  Forall (fun line => line <> [] /\ strip line = line
                      /\ is_heading U line = false) lines ->
  flat_map (format_line U) lines = lines.
Proof.
  induction 1 as [|l lines (Hne & Hs & Hh) _ IH]; simpl; [reflexivity|].
  unfold format_line at 1; cbv zeta; rewrite Hs, Hh, IH.
  destruct l; [congruence | reflexivity].
Qed.

(** X18: A text is returned unchanged when each of its lines is not empty, has
    no whitespace at its ends and is not a heading. *)
Theorem format_resume_text_unchanged (U : Unicode) (resume_text : str) :
  Forall (fun line => line <> [] /\ strip line = line
                      /\ is_heading U line = false)
         (split_on LF resume_text) ->
  format_resume_text U resume_text = resume_text.
Proof.
  intros H; rewrite format_resume_text_flat_map.
  rewrite (flat_map_format_line_fixed U _ H).
  apply join_split_on.
Qed.

Lemma format_resume_text_unchanged_witness :
  let text := lit "Python, SQL" ++ [LF] ++ lit "Five years of teaching" in
  Forall (fun line => line <> [] /\ strip line = line
                      /\ is_heading ascii_case line = false)
         (split_on LF text) /\
  format_resume_text ascii_case text = text.
Proof.
  intros text.
  assert (H : Forall (fun line => line <> [] /\ strip line = line
                                  /\ is_heading ascii_case line = false)
                     (split_on LF text)).
  { repeat constructor; try discriminate; vm_compute; reflexivity. }
  split; [exact H | apply (format_resume_text_unchanged _ _ H)].
Defined.

Lemma kept_lines_no_LF (resume_text : str) :
  Forall (fun line => ~ In LF line) (kept_lines resume_text).
Proof.
  apply Forall_forall; intros line Hin.
  apply (kept_lines_spec resume_text line Hin).
Qed.

(** X19: When no line of the text is a heading, the output is made of the
    stripped lines that are not empty, in their order: blank lines are
    dropped, nothing else is. *)
Theorem format_resume_text_lines (U : Unicode) (resume_text : str) :
  Forall (fun line => is_heading U (strip line) = false)
         (split_on LF resume_text) ->
  format_resume_text U resume_text = join [LF] (kept_lines resume_text) /\
  (kept_lines resume_text <> [] ->
   split_on LF (format_resume_text U resume_text) = kept_lines resume_text).
Proof.
  intros H.
  assert (E : format_resume_text U resume_text
              = join [LF] (kept_lines resume_text)).
  { rewrite format_resume_text_flat_map.
    rewrite (flat_map_format_line_plain U _ H); reflexivity. }
  split; [exact E|].
  intros Hne; rewrite E.
  apply split_on_join; [exact Hne | apply kept_lines_no_LF].
Qed.

Lemma format_resume_text_lines_witness :
  let text := lit "  Python  " ++ [LF; LF] ++ lit " teaching" ++ [LF] in
  Forall (fun line => is_heading ascii_case (strip line) = false)
         (split_on LF text) /\
  split_on LF (format_resume_text ascii_case text)
  = [lit "Python"; lit "teaching"].
Proof.
  intros text.
  assert (H : Forall (fun line => is_heading ascii_case (strip line) = false)
                     (split_on LF text)).
  { repeat constructor. }
  split; [exact H|].
  apply (proj2 (format_resume_text_lines ascii_case text H)).
  vm_compute; discriminate.
Defined.

(** X20: Formatting twice is formatting once, for a text without headings. *)
Theorem format_resume_text_idempotent (U : Unicode) (resume_text : str) :
  Forall (fun line => is_heading U (strip line) = false)
         (split_on LF resume_text) ->
  format_resume_text U (format_resume_text U resume_text)
  = format_resume_text U resume_text.
Proof.
  intros H.
  assert (E : format_resume_text U resume_text
              = join [LF] (kept_lines resume_text)).
  { rewrite format_resume_text_flat_map.
    rewrite (flat_map_format_line_plain U _ H); reflexivity. }
  pose proof (kept_lines_no_LF resume_text) as Hlf.
  rewrite E.
  destruct (kept_lines resume_text) as [|x ls] eqn:Ek; [reflexivity|].
  rewrite format_resume_text_flat_map.
  rewrite (split_on_join LF (x :: ls)) by (discriminate || exact Hlf).
  rewrite flat_map_format_line_fixed; [reflexivity|].
  apply Forall_forall; intros line Hin.
  rewrite <- Ek in Hin.
  destruct (kept_lines_spec resume_text line Hin)
    as (Hne & Hs & _ & l & Hl & ->).
  split; [exact Hne|]. split; [exact Hs|].
  rewrite Forall_forall in H; apply H, Hl.
Qed.

Lemma format_resume_text_idempotent_witness :
  let text := lit "  Python  " ++ [LF; LF] ++ lit " teaching" ++ [LF] in
  Forall (fun line => is_heading ascii_case (strip line) = false)
         (split_on LF text) /\
  format_resume_text ascii_case (format_resume_text ascii_case text)
  = format_resume_text ascii_case text.
Proof.
  intros text.
  assert (H : Forall (fun line => is_heading ascii_case (strip line) = false)
                     (split_on LF text)).
  { repeat constructor. }
  split; [exact H | apply (format_resume_text_idempotent _ _ H)].
Defined.

(** ** Headings *)

Lemma strip_unchanged (c d : N) (t : str) :
  isspace c = false -> isspace d = false ->
  strip (c :: t ++ [d]) = c :: t ++ [d].
Proof.
  intros Hc Hd; unfold strip; rewrite (lstrip_nonspace c _ Hc).
  unfold rstrip.
  change (c :: t ++ [d]) with ((c :: t) ++ [d]).
  rewrite rev_app_distr; cbn [rev app].
  rewrite (lstrip_nonspace d _ Hd).
  change (d :: rev t ++ [c]) with ([d] ++ rev (c :: t)).
  rewrite rev_app_distr, rev_involutive; reflexivity.
Qed.

Lemma marked_shape (line : str) :
  marked line = 35%N :: ([35; 35; 32]%N ++ line ++ [32; 35; 35]%N) ++ [35%N].
Proof.
  unfold marked; change (lit "### ") with [35; 35; 35; 32]%N.
  change (lit " ###") with [32; 35; 35; 35]%N.
  cbn [app]; rewrite <- app_assoc; reflexivity.
Qed.

Lemma strip_marked (line : str) : strip (marked line) = marked line.
Proof. rewrite marked_shape; apply strip_unchanged; reflexivity. Qed.

Lemma marked_no_LF (line : str) : ~ In LF line -> ~ In LF (marked line).
Proof.
  intros H Hin; unfold marked in Hin.
  apply in_app_or in Hin as [Hin | Hin];
    [|apply in_app_or in Hin as [Hin | Hin]; [exact (H Hin)|]];
    vm_compute in Hin; intuition discriminate.
Qed.

Lemma heading_marked (line : str) :
  heading line = LF :: LF :: marked line ++ [LF].
Proof.
  unfold heading, marked; cbn [app]; rewrite <- !app_assoc; reflexivity.
Qed.

Lemma split_ws_head (c : N) (s : str) :
  isspace c = false -> split_ws (c :: s) <> [].
Proof.
  intros Hc; simpl; rewrite Hc.
  destruct s as [|d s]; [discriminate|].
  destruct (isspace d); [discriminate|].
  destruct (split_ws (d :: s)); discriminate.
Qed.

Lemma split_ws_snoc_marker (s : str) :
  split_ws (s ++ [32; 35; 35; 35]%N) = split_ws s ++ [[35; 35; 35]%N].
Proof.
  induction s as [|c s IH]; [reflexivity|].
  cbn [app]; cbn [split_ws].
  destruct (isspace c); [exact IH|].
  destruct s as [|d s]; [reflexivity|].
  cbn [app] in *.
  destruct (isspace d) eqn:Hd; [rewrite IH; reflexivity|].
  rewrite IH.
  pose proof (split_ws_head d s Hd) as Hne.
  destruct (split_ws (d :: s)) as [|w ws]; [congruence | reflexivity].
Qed.

Lemma split_ws_marked (line : str) :
  length (split_ws (marked line)) = (2 + length (split_ws line))%nat.
Proof.
  unfold marked; change (lit "### ") with [35; 35; 35; 32]%N.
  change (lit " ###") with [32; 35; 35; 35]%N.
  change (split_ws ([35; 35; 35; 32]%N ++ line ++ [32; 35; 35; 35]%N))
    with ([35; 35; 35]%N :: split_ws (line ++ [32; 35; 35; 35]%N)).
  rewrite split_ws_snoc_marker; cbn [length]; rewrite length_app; simpl; lia.
Qed.

(** An upper-case line has an upper-case character and none that is
    lower-case or title-case. *)
Lemma isupper_chars (U : Unicode) (s : str) :
  CaseSpec U -> isupper U s = true ->
  existsb (fun c => cp_islower U c || cp_istitle U c) s = false /\
  existsb (cp_isupper U) s = true.
Proof.
  intros HU H; destruct s as [|c [|d s]]; [discriminate | |].
  - cbn [isupper] in H; cbn [existsb].
    destruct (upper_only U HU c H) as [-> ->]; rewrite H; split; reflexivity.
  - unfold isupper in H; apply andb_true_iff in H as [H1 H2].
    apply negb_true_iff in H1; split; assumption.
Qed.

Lemma isupper_marked (U : Unicode) (line : str) :
  CaseSpec U -> isupper U line = true -> isupper U (marked line) = true.
Proof.
  intros HU H; destruct (isupper_chars U line HU H) as [Hl Hu].
  destruct (hash_uncased U HU) as [H1 H2].
  destruct (space_uncased U HU) as [H3 H4].
  unfold marked; change (lit "### ") with [35; 35; 35; 32]%N.
  change (lit " ###") with [32; 35; 35; 35]%N.
  unfold isupper; cbn [app existsb].
  rewrite !existsb_app; cbn [existsb].
  rewrite Hl, Hu, H1, H2, H3, H4; cbn [orb negb andb].
  rewrite !orb_true_r; reflexivity.
Qed.

(** X21: A heading line is put between two empty lines and its markers. A
    second pass takes the marked line for a heading again, when the
    heading has at most three words, and wraps it once more: on headings
    the formatter is not idempotent. *)
Theorem format_resume_text_heading (U : Unicode) (HU : CaseSpec U)
    (line : str) :
  ~ In LF line -> strip line = line -> isupper U line = true ->
  (length (split_ws line) < 4)%nat ->
  format_resume_text U line = heading line /\
  split_on LF (heading line) = [[]; []; marked line; []] /\
  format_resume_text U (format_resume_text U line) = heading (marked line).
Proof.
  intros Hlf Hs Hup Hw.
  assert (H1 : format_resume_text U line = heading line).
  { rewrite format_resume_text_flat_map, (split_on_sep_free LF line Hlf).
    cbn [flat_map]; unfold format_line; cbv zeta; rewrite Hs.
    unfold is_heading; rewrite Hup.
    replace (length (split_ws line) <? 6)%nat with true
      by (symmetry; apply Nat.ltb_lt; lia).
    reflexivity. }
  assert (H2 : split_on LF (heading line) = [[]; []; marked line; []]).
  { rewrite heading_marked.
    change (LF :: LF :: marked line ++ [LF])
      with ([] ++ LF :: ([] ++ LF :: (marked line ++ LF :: []))).
    rewrite !split_on_app; try (apply marked_no_LF, Hlf); try (intros []).
    reflexivity. }
  split; [exact H1|]. split; [exact H2|].
  rewrite H1, format_resume_text_flat_map, H2.
  cbn [flat_map]; unfold format_line; cbv zeta.
  rewrite strip_marked; change (strip []) with (@nil N).
  rewrite is_heading_nil; unfold is_heading.
  rewrite (isupper_marked U line HU Hup), split_ws_marked.
  replace (2 + length (split_ws line) <? 6)%nat with true
    by (symmetry; apply Nat.ltb_lt; lia).
  reflexivity.
Qed.

Lemma ascii_case_spec : CaseSpec ascii_case.
Proof.
  constructor; [split; reflexivity | split; reflexivity|].
  intros c H; cbn [cp_isupper cp_islower cp_istitle ascii_case] in *.
  split; [|reflexivity].
  apply andb_true_iff in H as [H1 H2].
  apply N.leb_le in H1, H2.
  apply andb_false_iff; left; apply N.leb_gt; lia.
Qed.

Lemma format_resume_text_heading_witness :
  ~ In LF (lit "WORK EXPERIENCE") /\
  format_resume_text ascii_case (lit "WORK EXPERIENCE")
  = heading (lit "WORK EXPERIENCE") /\
  format_resume_text ascii_case
    (format_resume_text ascii_case (lit "WORK EXPERIENCE"))
  = heading (marked (lit "WORK EXPERIENCE")).
Proof.
  assert (Hlf : ~ In LF (lit "WORK EXPERIENCE"))
    by (vm_compute; intuition discriminate).
  assert (Hw : (length (split_ws (lit "WORK EXPERIENCE")) < 4)%nat)
    by (vm_compute; lia).
  split; [exact Hlf|].
  destruct (format_resume_text_heading ascii_case ascii_case_spec
              (lit "WORK EXPERIENCE") Hlf eq_refl eq_refl Hw)
    as (H1 & _ & H3).
  split; [exact H1 | exact H3].
Defined.

(** ** Skills extraction *)

Lemma rstrip_app_word (x r : str) (d : N) :
  isspace d = false ->
  rstrip ((x ++ [d]) ++ r) = (x ++ [d]) ++ rstrip r.
Proof.
  intros Hd; unfold rstrip.
  rewrite !rev_app_distr; cbn [rev app].
  destruct (lstrip (rev r)) as [|c t] eqn:E.
  - apply lstrip_nil_blank in E.
    rewrite (lstrip_app_blank (rev r) _ E), (lstrip_nonspace d _ Hd).
    rewrite app_nil_r.
    change (d :: rev x) with ([d] ++ rev x).
    rewrite rev_app_distr, rev_involutive; reflexivity.
  - rewrite lstrip_app_nonblank by (rewrite E; discriminate).
    rewrite E, rev_app_distr.
    change (d :: rev x) with ([d] ++ rev x).
    rewrite rev_app_distr, rev_involutive; reflexivity.
Qed.

Lemma skills_prompt_shape (resume_text : str) :
  skills_prompt resume_text
  = [LF; 32; 32; 32; 32]%N ++ prompt_opening ++ prompt_rest resume_text.
Proof. reflexivity. Qed.

(** The prompt carries the resume text as it is. *)
Lemma skills_prompt_interpolates (resume_text : str) :
  interpolates resume_text (skills_prompt resume_text).
Proof.
  exists (firstn 262 (skills_prompt [])), ([LF] ++ lit "    ").
  reflexivity.
Qed.

(** X22: What the function returns has no whitespace at either end: it is the
    decoded first sequence of the batch, stripped. With an empty batch the
    function raises [IndexError]. *)
Theorem extract_skills_stripped (M : Transformers) (resume_text : str) :
  (forall skills,
     extract_skills_using_ai M resume_text = Return skills ->
     strip skills = skills /\
     (forall c t, skills = c :: t -> isspace c = false) /\
     (forall t c, skills = t ++ [c] -> isspace c = false)) /\
  (generate M (tokenizer M (skills_prompt resume_text)) 600 = [] ->
   extract_skills_using_ai M resume_text = Raise IndexError).
Proof.
  unfold extract_skills_using_ai; cbv zeta; split.
  - intros skills H.
    destruct (generate M (tokenizer M (skills_prompt resume_text)) 600)
      as [|first batch]; [discriminate|].
    cbn in H; injection H as <-.
    split; [apply strip_idem | apply strip_ends].
  - intros ->; reflexivity.
Qed.

Lemma extract_skills_stripped_witness :
  extract_skills_using_ai echo_model (lit "Skills: SQL ")
  = Return (strip (skills_prompt (lit "Skills: SQL "))) /\
  strip (strip (skills_prompt (lit "Skills: SQL ")))
  = strip (skills_prompt (lit "Skills: SQL ")).
Proof.
  assert (H : extract_skills_using_ai echo_model (lit "Skills: SQL ")
              = Return (strip (skills_prompt (lit "Skills: SQL "))))
    by reflexivity.
  split; [exact H|].
  apply (proj1 (proj1 (extract_skills_stripped echo_model _) _ H)).
Defined.

(** X23: A causal language model returns its input followed by the new tokens.
    When the decoded first sequence starts with the prompt, the function
    returns a text that starts with the first sentence of the prompt: the
    instructions come back with the answer, and the result is never the
    empty string. *)
Theorem extract_skills_echo (M : Transformers) (resume_text : str)
    (first : tokens M) (batch : list (tokens M)) (continuation : str) :
  generate M (tokenizer M (skills_prompt resume_text)) 600 = first :: batch ->
  decode M first = skills_prompt resume_text ++ continuation ->
  exists rest,
    extract_skills_using_ai M resume_text
    = Return (prompt_opening ++ rest) /\
    prompt_opening ++ rest <> [].
Proof.
  intros Hgen Hdec.
  exists (rstrip (prompt_rest resume_text ++ continuation)); split.
  - unfold extract_skills_using_ai; cbv zeta; rewrite Hgen; cbn [getitem nth_error bind].
    rewrite Hdec, skills_prompt_shape; f_equal.
    unfold strip; rewrite <- !app_assoc.
    rewrite (lstrip_app_blank [LF; 32; 32; 32; 32]%N) by reflexivity.
    assert (Ho : exists x, prompt_opening = 89%N :: x ++ [46%N])
      by (exists (removelast (tl prompt_opening)); vm_compute; reflexivity).
    destruct Ho as [x Ho]; rewrite Ho.
    change ((89%N :: x ++ [46%N]) ++ prompt_rest resume_text ++ continuation)
      with (89%N :: (x ++ [46%N]) ++ prompt_rest resume_text ++ continuation).
    rewrite lstrip_nonspace by reflexivity.
    change (89%N :: (x ++ [46%N]) ++ prompt_rest resume_text ++ continuation)
      with (((89%N :: x) ++ [46%N])
            ++ prompt_rest resume_text ++ continuation).
    rewrite rstrip_app_word by reflexivity; reflexivity.
  - unfold prompt_opening; discriminate.
Qed.

Lemma extract_skills_echo_witness :
  exists rest,
    extract_skills_using_ai echo_model (lit "Skills: SQL")
    = Return (prompt_opening ++ rest) /\
    prompt_opening ++ rest <> [].
Proof.
  apply (extract_skills_echo echo_model (lit "Skills: SQL")
           (skills_prompt (lit "Skills: SQL")) [] []).
  - reflexivity.
  - cbn [decode echo_model]; rewrite app_nil_r; reflexivity.
Defined.
